(** * py-file-ingestion: a shallow embedding of [main.py]

    The development follows the source file top to bottom:
    - [Py]: the Python values, exceptions and string/dict primitives the
      program relies on;
    - [Pandas]: scalars, Series and DataFrames, as far as the program
      touches them;
    - [Ingest]: [load_column_mappings], [validate_mapping_config],
      the normalisation performed inside [process_files], the per-file
      state machine and the directory loop.

    External collaborators (the file system, the YAML/JSON parsers, the
    pandas readers, the BigQuery client, the wall clock) are fields of a
    [World] record: every theorem holds for every world. *)

From Stdlib Require Import String Ascii ZArith DecimalString.
From stdpp Require Import base tactics option list strings.

#[local] Set Warnings "-register-all,-clear-no-such-hyp".

Local Open Scope Z_scope.
Local Open Scope nat_scope.

(* ===================================================================== *)
(** * Python values and primitives *)
(* ===================================================================== *)

Module Py.

(** Exception classes the program raises itself or meets in messages.
    Every class here derives from [Exception], so [except Exception]
    catches all of them; asynchronous interrupts are not modelled. *)
Inductive exc_class :=
| Exception
| ValueError
| TypeError
| KeyError
| OSError
| LibraryError (name : string).

(** An exception object: its class and [str(e)]. *)
Record exc := Exc { exc_type : exc_class; exc_str : string }.

Inductive result (A : Type) :=
| Ok (a : A)
| Raise (e : exc).
Arguments Ok {A} a.
Arguments Raise {A} e.

Definition is_ok {A} (r : result A) : bool :=
  match r with Ok _ => true | Raise _ => false end.

#[global] Instance result_ret : MRet result := λ A a, Ok a.
#[global] Instance result_bind : MBind result := λ A B k r,
  match r with Ok a => k a | Raise e => Raise e end.

(** [try: body  except Exception as e: handler e] *)
Definition try_except {A} (body : result A) (handler : exc → result A)
  : result A :=
  match body with Ok a => Ok a | Raise e => handler e end.

(** Values produced by [json.load] and [yaml.safe_load].  A [dict] keeps
    its insertion order; keys of the documents this program reads are
    strings. Floats are carried by their [repr]. *)
Inductive pyval :=
| VNone
| VBool (b : bool)
| VInt (z : Z)
| VFloat (repr : string)
| VStr (s : string)
| VList (l : list pyval)
| VDict (d : list (string * pyval)).

Definition type_name (v : pyval) : string :=
  match v with
  | VNone => "NoneType" | VBool _ => "bool" | VInt _ => "int"
  | VFloat _ => "float" | VStr _ => "str" | VList _ => "list"
  | VDict _ => "dict"
  end.

(** [isinstance(v, dict)] *)
Definition isinstance_dict (v : pyval) : bool :=
  match v with VDict _ => true | _ => false end.

(** ** Strings *)

(** [s.endswith(suffix)] *)
Fixpoint endswith (s suffix : string) : bool :=
  String.eqb s suffix ||
  match s with
  | EmptyString => false
  | String _ s' => endswith s' suffix
  end.

(** [s.endswith((suf1, suf2, ...))] *)
Definition endswith_any (s : string) (suffixes : list string) : bool :=
  existsb (endswith s) suffixes.

(** [sub in s] for two strings *)
Fixpoint str_contains (s sub : string) : bool :=
  String.prefix sub s ||
  match s with
  | EmptyString => false
  | String _ s' => str_contains s' sub
  end.

(** [str(z)] for an [int] *)
Definition str_int (z : Z) : string := NilZero.string_of_int (Z.to_int z).

(** [repr(s)] of a string, escapes left aside *)
Definition repr_str (s : string) : string := "'" +:+ s +:+ "'".

(** ** Ordered dictionaries with string keys *)

Section Dict.
Context {V : Type}.

(** [d.get(key)] *)
Fixpoint dict_get (key : string) (d : list (string * V)) : option V :=
  match d with
  | [] => None
  | (k, v) :: d' => if String.eqb k key then Some v else dict_get key d'
  end.

(** [key in d] *)
Definition dict_mem (key : string) (d : list (string * V)) : bool :=
  existsb (String.eqb key) (map fst d).

(** [d[key] = v]: in place when the key exists, appended otherwise *)
Fixpoint dict_set (key : string) (v : V) (d : list (string * V))
  : list (string * V) :=
  match d with
  | [] => [(key, v)]
  | (k, w) :: d' =>
      if String.eqb k key then (k, v) :: d' else (k, w) :: dict_set key v d'
  end.
End Dict.

(** [key in container], for a string [key]. *)
Definition py_contains (container : pyval) (key : string) : result bool :=
  match container with
  | VDict d => Ok (dict_mem key d)
  | VList l =>
      Ok (existsb (λ x, match x with VStr s => String.eqb s key | _ => false end) l)
  | VStr s => Ok (str_contains s key)
  | v => Raise (Exc TypeError
           ("argument of type '" +:+ type_name v +:+ "' is not iterable"))
  end.

(** [container[key]], for a string [key]. *)
Definition py_getitem (container : pyval) (key : string) : result pyval :=
  match container with
  | VDict d =>
      match dict_get key d with
      | Some v => Ok v
      | None => Raise (Exc KeyError (repr_str key))
      end
  | VList _ =>
      Raise (Exc TypeError "list indices must be integers or slices, not str")
  | VStr _ =>
      Raise (Exc TypeError "string indices must be integers, not 'str'")
  | v => Raise (Exc TypeError
           ("'" +:+ type_name v +:+ "' object is not subscriptable"))
  end.

End Py.
Export Py.


(* ===================================================================== *)
(** * pandas, as far as the program uses it *)
(* ===================================================================== *)

Module Pandas.

(** A scalar held in a cell of a parsed file.  The readers turn a blank
    field of a CSV or Excel file into NaN, so a blank cell is [SNaN] and
    never an empty string; [SFloat] carries a float that is not NaN, by
    its [str].  A column of a parsed file is taken as the scalars it
    holds; it has dtype int64 when all of them are integers. *)
Inductive scalar :=
| SNone
| SNaN
| SBool (b : bool)
| SInt (z : Z)
| SFloat (repr : string)
| SStr (s : string).

(** [pd.isna(x)] and [pd.notna(x)] on a scalar *)
Definition isna (x : scalar) : bool :=
  match x with SNone | SNaN => true | _ => false end.
Definition notna (x : scalar) : bool := negb (isna x).

(** [str(x)] *)
Definition str_scalar (x : scalar) : string :=
  match x with
  | SNone => "None"
  | SNaN => "nan"
  | SBool true => "True"
  | SBool false => "False"
  | SInt z => str_int z
  | SFloat repr => repr
  | SStr s => s
  end.

(** One [{'Key': ..., 'Value': ...}] dictionary of the Attributes field. *)
Record AttributeEntry := { Key : string; Value : string }.

(** What a cell of [new_df], or a value of [row_dict], can hold: a scalar
    of the parsed file, the float64 of an integer (what an int64 column
    holds once an assignment had to fill it with NaN), a list of attribute
    dictionaries, or a [pd.Series]/[pd.DataFrame] object. *)
Inductive cell :=
| CScalar (x : scalar)
| CWidened (z : Z)
| CList (l : list AttributeEntry)
| CFrame.

(** [isinstance(v, pd.Series) or isinstance(v, pd.DataFrame)] *)
Definition is_series_or_frame (v : cell) : bool :=
  match v with CFrame => true | _ => false end.

(** The truth value of [pd.isna(v)], as an [if]/[elif] takes it.  On a
    list [pd.isna] answers element-wise with an array, whose truth value
    exists only for a single element (an attribute dictionary is not
    missing); on a Series it answers with a Series, which has none. *)
Definition isna_truth (v : cell) : result bool :=
  match v with
  | CScalar x => Ok (isna x)
  | CWidened _ => Ok false
  | CList [_] => Ok false
  | CList _ =>
      Raise (Exc ValueError "The truth value of an array is ambiguous")
  | CFrame =>
      Raise (Exc ValueError "The truth value of a Series is ambiguous")
  end.

(** A row label of an index.  [LInt z] is a number equal to the integer
    [z]: a label of a RangeIndex, an integer, a float such as [1.0].
    [LOther repr] is any other label that is not a boolean (a string, a
    date, a fractional number, NaN), and [LTuple repr] a tuple, the label
    of a MultiIndex; both are told apart by their [repr]. *)
Inductive label :=
| LInt (z : Z)
| LOther (repr : string)
| LTuple (repr : string).

#[global] Instance label_eq_dec : EqDecision label.
Proof. solve_decision. Defined.

(** The labels of [RangeIndex(n)], which are those of [range(n)] *)
Definition range_index (n : nat) : list label :=
  map (λ i, LInt (Z.of_nat i)) (seq 0 n).

(** [index.is_unique] *)
Definition is_unique (labels : list label) : bool := bool_decide (NoDup labels).

(** Whether the index is a MultiIndex: an index of tuples is one. *)
Definition is_multi (labels : list label) : bool :=
  existsb (λ l, match l with LTuple _ => true | _ => false end) labels.

(** The position of a label in an index without repeated labels, [None]
    when the index does not hold it. *)
Fixpoint get_loc (target : label) (labels : list label) : option nat :=
  match labels with
  | [] => None
  | l :: labels' =>
      if decide (l = target) then Some 0 else S <$> get_loc target labels'
  end.

(** The values of a Series or of a column, by position.  The labels of
    the positions are those of the index of the frame that holds the
    column. *)
Definition Series (A : Type) := nat → A.

(** A DataFrame: the labels of its rows and its columns in order.  The
    readers give a file [RangeIndex(n)], except [pd.read_csv] on a file
    whose data rows have more fields than the header: the leading fields
    then become the labels of the rows.  The readers rename repeated
    header names, and [set_column] replaces a column in place, so the
    names of the columns are distinct. *)
Record DataFrame (A : Type) := mkFrame {
  index : list label;
  data : list (string * Series A)
}.
Arguments mkFrame {A}.
Arguments index {A}.
Arguments data {A}.

(** [len(df)] *)
Definition len {A} (df : DataFrame A) : nat := length (index df).

(** [pd.DataFrame(index=range(n))] *)
Definition empty_frame {A} (n : nat) : DataFrame A := mkFrame (range_index n) [].

(** [df[c]] when [c in df.columns], [None] otherwise *)
Definition get_column {A} (c : string) (df : DataFrame A) : option (Series A) :=
  dict_get c (data df).

(** The column [c] of [df] replaced, or added after the others, by
    values given position by position. *)
Definition set_column {A} (c : string) (s : Series A) (df : DataFrame A)
  : DataFrame A :=
  mkFrame (index df) (dict_set c s (data df)).

(** [df[c] = x] for a scalar [x], repeated on every row *)
Definition set_scalar {A} (c : string) (x : A) (df : DataFrame A) : DataFrame A :=
  set_column c (λ _, x) df.

(** [df[c] = values] for a list: its length must be that of the index *)
Definition set_list {A} (c : string) (values : list A) (dflt : A)
    (df : DataFrame A) : result (DataFrame A) :=
  if Nat.eqb (length values) (len df)
  then Ok (set_column c (λ i, nth i values dflt) df)
  else Raise (Exc ValueError "Length of values does not match length of index").

(** Whether a column of [n] values has dtype int64. *)
Definition is_int64 (n : nat) (s : Series scalar) : bool :=
  forallb (λ i, match s i with SInt _ => true | _ => false end) (seq 0 n).

(** [value.reindex(index)] for a Series [value] with the labels [labels],
    which are distinct: the row labelled [l] gets the value that [value]
    holds at [l], and NaN when [value] has no such label.  An int64
    Series that is given a NaN becomes float64. *)
Definition reindex (labels : list label) (s : Series scalar)
    (index : list label) : Series cell :=
  let widen :=
    is_int64 (length labels) s
    && negb (forallb (λ l, bool_decide (is_Some (get_loc l labels))) index) in
  λ i,
    match index !! i ≫= (λ l, get_loc l labels) with
    | Some j =>
        match s j with
        | SInt z => if widen then CWidened z else CScalar (SInt z)
        | x => CScalar x
        end
    | None => CScalar SNaN
    end.

(** What [df[c] = value] stores for a Series [value] with the labels
    [labels], where [index] is the index of [df] (pandas'
    [_reindex_for_setitem]).  The values are taken as they are when the
    two indexes are equal or [df] has no rows.  Otherwise [value] is
    aligned on the labels of [df], which needs its own labels distinct
    and, for a [df] over integers as here, not those of a MultiIndex. *)
Definition reindex_for_setitem (labels : list label) (s : Series scalar)
    (index : list label) : result (Series cell) :=
  if bool_decide (labels = index) || Nat.eqb (length index) 0
  then Ok (λ i, CScalar (s i))
  else if is_multi labels then
    if is_unique labels
    then Raise (Exc TypeError
                  "incompatible index of inserted column with frame index")
    else Raise (Exc ValueError "cannot handle a non-unique multi-index!")
  else if is_unique labels then Ok (reindex labels s index)
  else Raise (Exc ValueError "cannot reindex on an axis with duplicate labels").

(** [df[c] = value] for a Series [value] with the labels [labels] *)
Definition set_series (c : string) (labels : list label) (s : Series scalar)
    (df : DataFrame cell) : result (DataFrame cell) :=
  values ← reindex_for_setitem labels s (index df);
  Ok (set_column c values df).

(** [df.iloc[idx].to_dict()]: the row at position [idx] *)
Definition iloc_to_dict {A} (df : DataFrame A) (idx : nat) : list (string * A) :=
  map (λ '(c, s), (c, s idx)) (data df).

End Pandas.
Export Pandas.

(* ===================================================================== *)
(** * main.py *)
(* ===================================================================== *)

Module Ingest.

(** One JSON row handed to BigQuery: field name to value, in column order. *)
Definition record := list (string * cell).

(** Calls that leave the process, in the order they are made. *)
Inductive Event :=
| EvPrint (line : string)
| EvReadExcel (filepath : string)
| EvReadCsv (filepath : string)
| EvLoadTable (json_rows : list record) (table_ref : string).

(** The collaborators of the program.  Time is a count of clock readings;
    the two renderings give the text of the reading taken at a tick. *)
Record World := {
  (** [open(path, 'r')]: the text of the file, or the error of opening it *)
  open_text : string → result string;
  yaml_safe_load : string → result pyval;
  json_load : string → result pyval;
  (** [bigquery.Client(project=project_id)] *)
  bigquery_Client : string → result unit;
  os_listdir : string → result (list string);
  pd_read_excel : string → result (DataFrame scalar);
  pd_read_csv : string → result (DataFrame scalar);
  (** [client.load_table_from_json(rows, table_ref, ...)] followed by
      [job.result()] *)
  load_table_from_json : list record → string → result unit;
  (** [datetime.now().isoformat()] *)
  isoformat : nat → string;
  (** [pd.Timestamp.now().strftime('%Y-%m-%d %H:%M:%S')] *)
  strftime : nat → string;
  (** What pandas makes of lines 102-151 for a mapping whose data source,
      target fields or attribute names are not strings: the clock
      readings taken, the lines printed, and the rows or the exception. *)
  pandas_other :
    pyval → string → DataFrame scalar → nat * list string * result (list record);
  (** [open(output_file, 'w')] and the dump of the statistics *)
  write_statistics : string → result unit
}.

(** ** Data model *)

Inductive Status := not_processed | skipped | failed | success.

Record FileStats := mkStats {
  total_rows : nat;
  processed_rows : nat;
  failed_rows : nat;
  status : Status;
  error_message : option string;
  start_time : option string;
  end_time : option string
}.

Definition set_total_rows (n : nat) (s : FileStats) : FileStats :=
  mkStats n (processed_rows s) (failed_rows s) (status s) (error_message s)
    (start_time s) (end_time s).
Definition set_processed_rows (n : nat) (s : FileStats) : FileStats :=
  mkStats (total_rows s) n (failed_rows s) (status s) (error_message s)
    (start_time s) (end_time s).
Definition set_status (x : Status) (s : FileStats) : FileStats :=
  mkStats (total_rows s) (processed_rows s) (failed_rows s) x (error_message s)
    (start_time s) (end_time s).
Definition set_error_message (m : option string) (s : FileStats) : FileStats :=
  mkStats (total_rows s) (processed_rows s) (failed_rows s) (status s) m
    (start_time s) (end_time s).
Definition set_end_time (t : option string) (s : FileStats) : FileStats :=
  mkStats (total_rows s) (processed_rows s) (failed_rows s) (status s)
    (error_message s) (start_time s) t.

(** The mapping of one file, once its data source, target fields and
    attribute names are known to be strings. *)
Record FileMapping := mkMapping {
  data_source : option string;
  columns : list (string * string);
  attributes : option (list (string * string))
}.

Fixpoint str_items (d : list (string * pyval)) : option (list (string * string)) :=
  match d with
  | [] => Some []
  | (k, VStr s) :: d' => cons (k, s) <$> str_items d'
  | _ => None
  end.

Definition file_mapping_of (v : pyval) : option FileMapping :=
  match v with
  | VDict d =>
      match dict_get "columns" d with
      | Some (VDict cs) =>
          cols ← str_items cs;
          attrs ← match dict_get "attributes" d with
                  | None => Some None
                  | Some (VDict a) => Some <$> str_items a
                  | Some _ => None
                  end;
          ds ← match dict_get "data_source" d with
               | None => Some None
               | Some (VStr s) => Some (Some s)
               | Some _ => None
               end;
          Some (mkMapping ds cols attrs)
      | _ => None
      end
  | _ => None
  end.

(** ** [load_column_mappings] (lines 10-21) *)

Definition load_column_mappings (W : World) (mapping_file : string)
  : result pyval :=
  try_except
    (f ← open_text W mapping_file;
     if endswith_any mapping_file [".yaml"; ".yml"] then yaml_safe_load W f
     else if endswith mapping_file ".json" then json_load W f
     else Raise (Exc ValueError "Mapping file must be either YAML or JSON"))
    (λ e, Raise (Exc Exception ("Error loading mapping file: " +:+ exc_str e))).

(** ** [validate_mapping_config] (lines 23-33) *)

Definition validate_mapping_config (mapping : pyval) (filename : string)
  : result bool :=
  if negb (isinstance_dict mapping) then Ok false
  else
    has_columns ← py_contains mapping "columns";
    if negb has_columns then Ok false
    else
      cols ← py_getitem mapping "columns";
      if negb (isinstance_dict cols) then Ok false
      else
        has_attributes ← py_contains mapping "attributes";
        if (has_attributes : bool) then
          attrs ← py_getitem mapping "attributes";
          if negb (isinstance_dict attrs) then Ok false else Ok true
        else Ok true.

(** ** Normalisation (lines 102-151 of [process_files]) *)

(** [[f(idx) for idx in range(n)]], also the loop that appends [f(idx)]
    for each [idx in range(n)] *)
Definition for_range {A} (n : nat) (f : nat → A) : list A := map f (seq 0 n).

Fixpoint result_mapM {A B} (f : A → result B) (l : list A) : result (list B) :=
  match l with
  | [] => Ok []
  | x :: l' => y ← f x; ys ← result_mapM f l'; Ok (y :: ys)
  end.

(** Lines 102-115: the frame of defaults. *)
Definition default_frame (fm : FileMapping) (filename : string)
    (created modified inserted : string) (n : nat) : DataFrame cell :=
  let new_df := empty_frame n in
  let new_df :=
    set_scalar "DataSource"
      (CScalar (SStr (default "unknown" (data_source fm)))) new_df in
  let new_df := set_scalar "SourceCreatedDate" (CScalar (SStr created)) new_df in
  let new_df := set_scalar "SourceModifiedDate" (CScalar (SStr modified)) new_df in
  let new_df := set_scalar "SourceFile" (CScalar (SStr filename)) new_df in
  let new_df := set_scalar "BQInsertedDate" (CScalar (SStr inserted)) new_df in
  let new_df := set_scalar "Id" (CScalar SNone) new_df in
  let new_df := set_scalar "FirstName" (CScalar SNone) new_df in
  let new_df := set_scalar "LastName" (CScalar SNone) new_df in
  let new_df := set_scalar "Email" (CScalar SNone) new_df in
  let new_df := set_scalar "Mobile" (CScalar SNone) new_df in
  let new_df := set_scalar "PostCode" (CScalar SNone) new_df in
  new_df.

Definition warning_line (source_col filename : string) : string :=
  "Warning: Column " +:+ source_col +:+ " not found in " +:+ filename.

(** Lines 117-121: one turn of the loop over [file_mapping['columns']],
    given [new_df] and the lines printed so far.  The assignment of line
    119 aligns the column of [df] on the labels of [new_df]. *)
Definition apply_column (filename : string) (df : DataFrame scalar)
    (new_df : DataFrame cell) (printed : list string) (entry : string * string)
  : list string * result (DataFrame cell) :=
  let '(source_col, target_col) := entry in
  match get_column source_col df with
  | Some series => (printed, set_series target_col (index df) series new_df)
  | None => (printed ++ [warning_line source_col filename], Ok new_df)
  end.

(** Lines 117-121: the loop, which ends at the first assignment that
    raises. *)
Fixpoint apply_columns (filename : string) (df : DataFrame scalar)
    (cols : list (string * string)) (new_df : DataFrame cell)
    (printed : list string) : list string * result (DataFrame cell) :=
  match cols with
  | [] => (printed, Ok new_df)
  | entry :: cols' =>
      match apply_column filename df new_df printed entry with
      | (printed', Ok new_df') => apply_columns filename df cols' new_df' printed'
      | (printed', Raise e) => (printed', Raise e)
      end
  end.

(** Lines 128-135: one turn of the loop over [file_mapping['attributes']].
    [df[source_col].iloc[idx]] is the value at position [idx]. *)
Definition append_attribute (df : DataFrame scalar) (idx : nat)
    (row_attributes : list AttributeEntry) (entry : string * string)
  : list AttributeEntry :=
  let '(source_col, attr_name) := entry in
  match get_column source_col df with
  | Some series =>
      let value := series idx in
      if notna value
      then row_attributes ++ [{| Key := attr_name; Value := str_scalar value |}]
      else row_attributes
  | None => row_attributes
  end.

(** Lines 127-135 *)
Definition row_attributes_of (attrs : list (string * string))
    (df : DataFrame scalar) (idx : nat) : list AttributeEntry :=
  fold_left (append_attribute df idx) attrs [].

(** Lines 123-138 *)
Definition attributes_list_of (fm : FileMapping) (df : DataFrame scalar)
  : list (list AttributeEntry) :=
  match attributes fm with
  | Some attrs => for_range (len df) (row_attributes_of attrs df)
  | None => for_range (len df) (λ _, [])
  end.

(** Lines 102-140 *)
Definition build_new_df (fm : FileMapping) (filename : string)
    (created modified inserted : string) (df : DataFrame scalar)
  : list string * result (DataFrame cell) :=
  let new_df := default_frame fm filename created modified inserted (len df) in
  let '(printed, new_df) := apply_columns filename df (columns fm) new_df [] in
  (printed,
   new_df ← new_df;
   let attributes_list := attributes_list_of fm df in
   set_list "Attributes" (map CList attributes_list) (CScalar SNaN) new_df).

Definition kept_fields : list string := ["BQInsertedDate"; "SourceFile"; "Attributes"].

(** Lines 145-150, for one key of [row_dict] *)
Definition nullify (item : string * cell) : result (string * cell) :=
  let '(key, v) := item in
  if negb (existsb (String.eqb key) kept_fields) then
    if is_series_or_frame v then Ok (key, CScalar SNone)
    else
      missing ← isna_truth v;
      if (missing : bool) then Ok (key, CScalar SNone) else Ok (key, v)
  else Ok (key, v).

(** Lines 142-151 *)
Definition json_rows_of (new_df : DataFrame cell) : result (list record) :=
  result_mapM (λ idx, result_mapM nullify (iloc_to_dict new_df idx))
    (seq 0 (len new_df)).

(** Lines 102-151: the lines printed, and the rows or the exception. *)
Definition normalize (fm : FileMapping) (filename : string)
    (created modified inserted : string) (df : DataFrame scalar)
  : list string * result (list record) :=
  let '(printed, new_df) :=
    build_new_df fm filename created modified inserted df in
  (printed, ndf ← new_df; json_rows_of ndf).

(** ** The state of a run and its monad *)

(** [stats], the clock, and the calls made so far. *)
Record State := mkState {
  stats : list (string * FileStats);
  clock : nat;
  events : list Event
}.

(** A computation that reads and changes the state and may raise; the
    state reached is kept when it raises. *)
Definition Run (A : Type) : Type := State → result A * State.

#[global] Instance Run_ret : MRet Run := λ A a st, (Ok a, st).
#[global] Instance Run_bind : MBind Run := λ A B k m st,
  match m st with
  | (Ok a, st') => k a st'
  | (Raise e, st') => (Raise e, st')
  end.

Definition liftR {A} (r : result A) : Run A := λ st, (r, st).

(** One reading of the clock. *)
Definition now : Run nat := λ st,
  (Ok (clock st), mkState (stats st) (S (clock st)) (events st)).

Definition advance (ticks : nat) : Run unit := λ st,
  (Ok (), mkState (stats st) (ticks + clock st) (events st)).

Definition emit (ev : Event) : Run unit := λ st,
  (Ok (), mkState (stats st) (clock st) (events st ++ [ev])).

Definition print (line : string) : Run unit := emit (EvPrint line).

Fixpoint for_each {A} (body : A → Run unit) (l : list A) : Run unit :=
  match l with
  | [] => mret ()
  | x :: l' => body x;; for_each body l'
  end.

(** [stats = {}] *)
Definition stats_clear : Run unit := λ st,
  (Ok (), mkState [] (clock st) (events st)).

Definition stats_read : Run (list (string * FileStats)) := λ st, (Ok (stats st), st).

(** [stats[filename] = entry] *)
Definition stats_new (filename : string) (entry : FileStats) : Run unit := λ st,
  (Ok (), mkState (dict_set filename entry (stats st)) (clock st) (events st)).

(** [stats[filename][field] = value], [f] being the change of the field *)
Definition stats_update (filename : string) (f : FileStats → FileStats)
  : Run unit := λ st,
  match dict_get filename (stats st) with
  | Some entry =>
      (Ok (), mkState (dict_set filename (f entry) (stats st)) (clock st) (events st))
  | None => (Raise (Exc KeyError (repr_str filename)), st)
  end.

(** [try: body  except Exception as e: handler e  finally: final] *)
Definition try_except_finally (body : Run unit) (handler : exc → Run unit)
    (final : Run unit) : Run unit := λ st,
  let '(r1, st1) := body st in
  let '(r2, st2) :=
    match r1 with
    | Ok _ => (Ok (), st1)
    | Raise e => handler e st1
    end in
  let '(r3, st3) := final st2 in
  match r3 with
  | Ok _ => (r2, st3)
  | Raise e => (Raise e, st3)
  end.

(** [try: body  except Exception as e: handler e] *)
Definition try_catch {A} (body : Run A) (handler : exc → Run A) : Run A := λ st,
  match body st with
  | (Ok a, st1) => (Ok a, st1)
  | (Raise e, st1) => handler e st1
  end.

(** ** [process_files] (lines 35-172) *)

(** [os.path.join(directory, filename)] for a name of a directory entry *)
Definition path_join (directory filename : string) : string :=
  if String.eqb directory "" then filename
  else if endswith directory "/" then directory +:+ filename
  else directory +:+ "/" +:+ filename.

(** Lines 94-97 *)
Definition read_file (W : World) (filename filepath : string)
  : Run (DataFrame scalar) :=
  if endswith filename ".xlsx" then
    emit (EvReadExcel filepath);; liftR (pd_read_excel W filepath)
  else if endswith filename ".csv" then
    emit (EvReadCsv filepath);; liftR (pd_read_csv W filepath)
  else
    liftR (Raise (Exc (LibraryError "UnboundLocalError")
      "cannot access local variable 'df' where it is not associated with a value")).

(** Lines 102-151 on the mapping as loaded. *)
Definition normalize_step (W : World) (file_mapping : pyval) (filename : string)
    (df : DataFrame scalar) : Run (list record) :=
  match file_mapping_of file_mapping with
  | Some fm =>
      created ← now; modified ← now; inserted ← now;
      let '(printed, json_rows) :=
        normalize fm filename (strftime W created) (strftime W modified)
          (strftime W inserted) df in
      for_each print printed;;
      liftR json_rows
  | None =>
      let '(ticks, printed, json_rows) := pandas_other W file_mapping filename df in
      advance ticks;;
      for_each print printed;;
      liftR json_rows
  end.

(** Lines 94-162: the body of the [try]. *)
Definition try_body (W : World) (table_ref : string) (file_mapping : pyval)
    (filename filepath : string) : Run unit :=
  df ← read_file W filename filepath;
  stats_update filename (set_total_rows (len df));;
  json_rows ← normalize_step W file_mapping filename df;
  emit (EvLoadTable json_rows table_ref);;
  liftR (load_table_from_json W json_rows table_ref);;
  stats_update filename (set_status success);;
  stats_update filename (set_processed_rows (length json_rows)).

(** Lines 164-167 *)
Definition on_error (filename : string) (e : exc) : Run unit :=
  stats_update filename (set_status failed);;
  stats_update filename (set_error_message (Some (exc_str e)));;
  print ("Error processing file " +:+ filename +:+ ": " +:+ exc_str e).

(** Lines 169-170 *)
Definition on_exit (W : World) (filename : string) : Run unit :=
  t ← now;
  stats_update filename (set_end_time (Some (isoformat W t))).

(** Lines 64-170: the body of the loop over the directory. *)
Definition process_file (W : World) (directory table_ref : string)
    (mappings : pyval) (filename : string) : Run unit :=
  let filepath := path_join directory filename in
  t ← now;
  stats_new filename (mkStats 0 0 0 not_processed None (Some (isoformat W t)) None);;
  if negb (endswith_any filename [".xlsx"; ".csv"]) then
    stats_update filename (set_status skipped);;
    stats_update filename (set_error_message (Some "Not a supported file type"))
  else
    mapped ← liftR (py_contains mappings filename);
    if negb mapped then
      stats_update filename (set_status skipped);;
      stats_update filename (set_error_message (Some "No mapping configuration found"))
    else
      file_mapping ← liftR (py_getitem mappings filename);
      valid ← liftR (validate_mapping_config file_mapping filename);
      if negb valid then
        stats_update filename (set_status failed);;
        stats_update filename (set_error_message (Some "Invalid mapping configuration"))
      else
        try_except_finally
          (try_body W table_ref file_mapping filename filepath)
          (on_error filename)
          (on_exit W filename).

Definition process_files (W : World)
    (directory mapping_file project_id dataset_id table_id : string)
  : Run (list (string * FileStats)) :=
  liftR (bigquery_Client W project_id);;
  let table_ref := project_id +:+ "." +:+ dataset_id +:+ "." +:+ table_id in
  mappings ← liftR (load_column_mappings W mapping_file);
  stats_clear;;
  filenames ← liftR (os_listdir W directory);
  for_each (process_file W directory table_ref mappings) filenames;;
  stats_read.

(** ** [save_statistics] and [main] (lines 174-213) *)

Definition status_str (s : Status) : string :=
  match s with
  | not_processed => "not_processed"
  | skipped => "skipped"
  | failed => "failed"
  | success => "success"
  end.

Definition str_nat (n : nat) : string := str_int (Z.of_nat n).

(** The line feed that the literals of lines 201 and 203 start with. *)
Definition newline : string := String "010" EmptyString.

(** Lines 174-177: the file is opened for writing and the statistics are
    dumped into it. *)
Definition save_statistics (W : World) (stats : list (string * FileStats))
    (output_file : string) : Run unit :=
  liftR (write_statistics W output_file).

(** Lines 203-209 *)
Definition print_summary (item : string * FileStats) : Run unit :=
  let '(filename, file_stats) := item in
  print (newline +:+ "File: " +:+ filename);;
  print ("Status: " +:+ status_str (status file_stats));;
  print ("Total rows: " +:+ str_nat (total_rows file_stats));;
  print ("Processed rows: " +:+ str_nat (processed_rows file_stats));;
  print ("Failed rows: " +:+ str_nat (failed_rows file_stats));;
  match error_message file_stats with
  | Some (String c m) => print ("Error: " +:+ String c m)
  | _ => mret ()
  end.

(** The exit status of [main]. *)
Definition main (W : World)
    (directory mapping_file project_id dataset_id table_id output_file : string)
  : Run nat :=
  try_catch
    (stats ← process_files W directory mapping_file project_id dataset_id table_id;
     save_statistics W stats output_file;;
     print (newline +:+ "Processing Summary:");;
     for_each print_summary stats;;
     mret 0)
    (λ e, print ("Error during processing: " +:+ exc_str e);; mret 1).

Definition init_state (t : nat) : State := mkState [] t [].

End Ingest.

(* ===================================================================== *)
(** * Properties *)
(* ===================================================================== *)

Import Ingest.

(** ** Vocabulary of the statements *)

(** The context the loader puts before every error (line 21). *)
Definition load_error_prefix : string := "Error loading mapping file: ".

(** A world for examples: every file opens, YAML parses to an empty
    mapping, JSON does not parse, nothing else fails. *)
Definition quiet_world : World := {|
  open_text := λ _, Ok "";
  yaml_safe_load := λ _, Ok (VDict []);
  json_load := λ _, Raise (Exc (LibraryError "JSONDecodeError")
                     "Expecting value: line 1 column 1 (char 0)");
  bigquery_Client := λ _, Ok ();
  os_listdir := λ _, Ok [];
  pd_read_excel := λ _, Ok (mkFrame [] []);
  pd_read_csv := λ _, Ok (mkFrame [] []);
  load_table_from_json := λ _ _, Ok ();
  isoformat := str_nat;
  strftime := str_nat;
  pandas_other := λ _ _ _, (0, [], Ok []);
  write_statistics := λ _, Ok ()
|}.

(** The row of defaults (lines 105-115). *)
Definition default_row (fm : FileMapping) (filename : string)
    (created modified inserted : string) : record :=
  [("DataSource", CScalar (SStr (default "unknown" (data_source fm))));
   ("SourceCreatedDate", CScalar (SStr created));
   ("SourceModifiedDate", CScalar (SStr modified));
   ("SourceFile", CScalar (SStr filename));
   ("BQInsertedDate", CScalar (SStr inserted));
   ("Id", CScalar SNone); ("FirstName", CScalar SNone);
   ("LastName", CScalar SNone); ("Email", CScalar SNone);
   ("Mobile", CScalar SNone); ("PostCode", CScalar SNone)].

(** The dataset has the index the readers give by default, or one with
    the same labels. *)
Definition default_index (df : DataFrame scalar) : Prop :=
  index df = range_index (len df).

(** Line 119 can align a column of the dataset on the rows of [new_df]:
    the labels of the dataset are those of [new_df], or they are distinct
    and not tuples. *)
Definition alignable (df : DataFrame scalar) : bool :=
  bool_decide (index df = range_index (len df))
  || negb (is_multi (index df)) && is_unique (index df).

(** [source_col in df.columns] *)
Definition has_column (source_col : string) (df : DataFrame scalar) : bool :=
  match get_column source_col df with Some _ => true | None => false end.

(** No turn of the loop over the columns raises: the dataset is
    alignable, or no entry names a column of the dataset. *)
Definition assignable (cols : list (string * string)) (df : DataFrame scalar)
  : bool :=
  alignable df
  || forallb (λ entry : string * string, negb (has_column entry.1 df)) cols.

(** The value that line 119 stores at row [idx] of the target column. *)
Definition stored_cell (df : DataFrame scalar) (series : Series scalar)
    (idx : nat) : cell :=
  if bool_decide (index df = range_index (len df)) then CScalar (series idx)
  else reindex (index df) series (range_index (len df)) idx.

(** What one turn of the loop over the columns does to row [idx] of
    [new_df]. *)
Definition apply_column_at (df : DataFrame scalar) (idx : nat) (r : record)
    (entry : string * string) : record :=
  match get_column entry.1 df with
  | Some series => dict_set entry.2 (stored_cell df series idx) r
  | None => r
  end.

(** The same on a dataset with the default index, where row [idx] of the
    target column is filled from the input row [idx] alone. *)
Definition apply_column_row (row : list (string * scalar)) (r : record)
    (entry : string * string) : record :=
  match dict_get entry.1 row with
  | Some x => dict_set entry.2 (CScalar x) r
  | None => r
  end.

(** The attribute entry a pair of the attributes mapping gives on a row. *)
Definition attribute_of (row : list (string * scalar)) (entry : string * string)
  : list AttributeEntry :=
  match dict_get entry.1 row with
  | Some value =>
      if notna value then [{| Key := entry.2; Value := str_scalar value |}] else []
  | None => []
  end.

(** A value the null normalisation replaces: a Series or DataFrame
    object, or a scalar that [pd.isna] finds missing.  (Lists are held
    under 'Attributes', which the normalisation leaves alone.) *)
Definition is_missing (v : cell) : bool :=
  match v with
  | CScalar x => isna x
  | CWidened _ => false
  | CList _ => false
  | CFrame => true
  end.

(** Lines 145-150 on an item whose value is a scalar or whose key is kept. *)
Definition nullified (item : string * cell) : string * cell :=
  if existsb (String.eqb item.1) kept_fields then item
  else if is_missing item.2 then (item.1, CScalar SNone) else item.

(** The Attributes list of a row. *)
Definition row_attributes_row (fm : FileMapping) (row : list (string * scalar))
  : list AttributeEntry :=
  match attributes fm with
  | Some attrs => flat_map (attribute_of row) attrs
  | None => []
  end.

(** Row [idx] of [new_df], which is the record at position [idx] before
    the null normalisation. *)
Definition record_at (fm : FileMapping) (filename : string)
    (created modified inserted : string) (df : DataFrame scalar) (idx : nat)
  : record :=
  dict_set "Attributes" (CList (row_attributes_row fm (iloc_to_dict df idx)))
    (fold_left (apply_column_at df idx) (columns fm)
       (default_row fm filename created modified inserted)).

(** The record made of one input row alone, before the null
    normalisation. *)
Definition raw_record (fm : FileMapping) (filename : string)
    (created modified inserted : string) (row : list (string * scalar)) : record :=
  dict_set "Attributes" (CList (row_attributes_row fm row))
    (fold_left (apply_column_row row) (columns fm)
       (default_row fm filename created modified inserted)).

(** Items on which [nullify] cannot raise. *)
Definition scalar_item (item : string * cell) : Prop :=
  match item.2 with CScalar _ | CWidened _ => True | _ => False end.

Definition nullable_item (item : string * cell) : Prop :=
  item.1 = "Attributes" ∨ scalar_item item.

(** A small dataset and mapping for the examples: two rows, a blank name
    in the second, and a mapping that also names a column the file lacks. *)
Definition sample_df : DataFrame scalar :=
  mkFrame (range_index 2)
    [("id", λ i, nth i [SInt 1; SInt 2] SNaN);
     ("name", λ i, nth i [SStr "Ann"; SNaN] SNaN);
     ("age", λ i, nth i [SFloat "30.0"; SNaN] SNaN)].

Definition sample_mapping : FileMapping :=
  mkMapping (Some "crm")
    [("id", "Id"); ("name", "FirstName"); ("Email2", "Email"); ("age", "Extra")]
    (Some [("age", "Age"); ("name", "Nick"); ("zip", "Zip")]).

(** Four reads of a file of two people by [pd.read_csv], where the data
    rows have one field more than the header [name,phone], so that the
    first field of a row becomes its label.  The first fields are [1] and
    [0] in [swapped_df], [1] and [2] in [numbered_df], the names
    themselves in [shifted_df] (a delimiter ends every data row), and [7]
    and [7] in [repeated_df]. *)
Definition swapped_df : DataFrame scalar :=
  mkFrame [LInt 1; LInt 0]
    [("name", λ i, nth i [SStr "Ann"; SStr "Bob"] SNaN);
     ("phone", λ i, nth i [SInt 61; SInt 62] SNaN)].

Definition numbered_df : DataFrame scalar :=
  mkFrame [LInt 1; LInt 2]
    [("name", λ i, nth i [SStr "Ann"; SStr "Bob"] SNaN);
     ("phone", λ i, nth i [SInt 61; SInt 62] SNaN)].

Definition shifted_df : DataFrame scalar :=
  mkFrame [LOther "'Ann'"; LOther "'Bob'"]
    [("name", λ i, nth i [SInt 61; SInt 62] SNaN);
     ("phone", λ _, SNaN)].

Definition repeated_df : DataFrame scalar :=
  mkFrame [LInt 7; LInt 7]
    [("name", λ i, nth i [SStr "Ann"; SStr "Bob"] SNaN);
     ("phone", λ i, nth i [SInt 61; SInt 62] SNaN)].

Definition people_mapping : FileMapping :=
  mkMapping (Some "crm") [("name", "FirstName"); ("phone", "Mobile")]
    (Some [("name", "Nick")]).

(** The attribute entries of row [idx], as the specification words them:
    one entry per pair of the attributes mapping whose source column exists
    in the dataset and holds a value that is not missing, in the order of
    the mapping. *)
Definition expected_attributes (attrs : list (string * string))
    (df : DataFrame scalar) (idx : nat) : list AttributeEntry :=
  flat_map
    (λ entry : string * string,
       match get_column entry.1 df with
       | Some series =>
           if notna (series idx)
           then [{| Key := entry.2; Value := str_scalar (series idx) |}]
           else []
       | None => []
       end)
    attrs.

(** The entry of a file when processing stopped before the [try]. *)
Definition stopped (W : World) (t : nat) (s : Status) (message : string)
  : FileStats :=
  mkStats 0 0 0 s (Some message) (Some (isoformat W t)) None.

(** The reader chosen by the extension, and the call it shows. *)
Definition read_result (W : World) (filename filepath : string)
  : result (DataFrame scalar) :=
  if endswith filename ".xlsx" then pd_read_excel W filepath
  else pd_read_csv W filepath.

Definition read_event (filename filepath : string) : Event :=
  if endswith filename ".xlsx" then EvReadExcel filepath else EvReadCsv filepath.

(** Lines 102-151 on the mapping as loaded, from clock reading [t]: the
    readings taken, the lines printed, the rows or the exception. *)
Definition norm_outcome (W : World) (file_mapping : pyval) (filename : string)
    (df : DataFrame scalar) (t : nat) : nat * list string * result (list record) :=
  match file_mapping_of file_mapping with
  | Some fm =>
      let out := normalize fm filename (strftime W t) (strftime W (S t))
                   (strftime W (S (S t))) df in
      (3, out.1, out.2)
  | None => pandas_other W file_mapping filename df
  end.

(** The line printed by the handler (line 167). *)
Definition error_line (filename : string) (e : exc) : string :=
  "Error processing file " +:+ filename +:+ ": " +:+ exc_str e.

(** The entry, the clock and the calls of a file whose processing entered
    the [try] at clock reading [t]. *)
Definition tried (W : World) (table_ref : string) (file_mapping : pyval)
    (filename filepath : string) (t : nat) : FileStats * nat * list Event :=
  let start := Some (isoformat W t) in
  let fail total e ticks evs :=
    (mkStats total 0 0 failed (Some (exc_str e)) start
       (Some (isoformat W (ticks + S t))),
     S (ticks + S t),
     evs ++ [EvPrint (error_line filename e)]) in
  match read_result W filename filepath with
  | Raise e => fail 0 e 0 [read_event filename filepath]
  | Ok df =>
      let '(ticks, printed, json_rows) :=
        norm_outcome W file_mapping filename df (S t) in
      let evs := read_event filename filepath :: map EvPrint printed in
      match json_rows with
      | Raise e => fail (len df) e ticks evs
      | Ok rows =>
          let evs := evs ++ [EvLoadTable rows table_ref] in
          match load_table_from_json W rows table_ref with
          | Raise e => fail (len df) e ticks evs
          | Ok _ =>
              (mkStats (len df) (length rows) 0 success None start
                 (Some (isoformat W (ticks + S t))),
               S (ticks + S t), evs)
          end
      end
  end.

(** The entry, the clock and the calls of one file, whatever its path
    through the body of the loop, started at clock reading [t]. *)
Definition file_step (W : World) (directory table_ref : string)
    (d : list (string * pyval)) (filename : string) (t : nat)
  : FileStats * nat * list Event :=
  if negb (endswith_any filename [".xlsx"; ".csv"]) then
    (stopped W t skipped "Not a supported file type", S t, [])
  else
    match dict_get filename d with
    | None => (stopped W t skipped "No mapping configuration found", S t, [])
    | Some file_mapping =>
        match validate_mapping_config file_mapping filename with
        | Ok true =>
            tried W table_ref file_mapping filename
              (path_join directory filename) t
        | _ => (stopped W t failed "Invalid mapping configuration", S t, [])
        end
    end.


(** The file has a supported extension and a mapping that validates: its
    processing enters the [try]. *)
Definition reaches_try (d : list (string * pyval)) (filename : string) : Prop :=
  endswith_any filename [".xlsx"; ".csv"] = true
  ∧ ∃ file_mapping,
      dict_get filename d = Some file_mapping
      ∧ validate_mapping_config file_mapping filename = Ok true.

(** A directory for the examples: a file that loads, a text file, a file
    without mapping, a file whose 'columns' is a list, an upper-case
    extension that has a mapping all the same, and a workbook that does not
    parse. *)
Definition demo_doc : list (string * pyval) :=
  [("a.csv", VDict [("data_source", VStr "crm");
                    ("columns", VDict [("id", VStr "Id"); ("name", VStr "FirstName");
                                       ("Email2", VStr "Email"); ("age", VStr "Extra")]);
                    ("attributes", VDict [("age", VStr "Age"); ("name", VStr "Nick");
                                          ("zip", VStr "Zip")])]);
   ("d.csv", VDict [("columns", VList [VStr "id"])]);
   ("DATA.CSV", VDict [("columns", VDict [("id", VStr "Id")])]);
   ("e.xlsx", VDict [("columns", VDict [])])].

Definition demo_files : list string :=
  ["a.csv"; "b.txt"; "c.csv"; "d.csv"; "DATA.CSV"; "e.xlsx"].

Definition demo_world : World := {|
  open_text := λ _, Ok "";
  yaml_safe_load := λ _, Ok (VDict demo_doc);
  json_load := λ _, Ok (VDict demo_doc);
  bigquery_Client := λ _, Ok ();
  os_listdir := λ _, Ok demo_files;
  pd_read_excel := λ _, Raise (Exc (LibraryError "BadZipFile") "File is not a zip file");
  pd_read_csv := λ _, Ok sample_df;
  load_table_from_json := λ _ _, Ok ();
  isoformat := str_nat;
  strftime := str_nat;
  pandas_other := λ _ _ _, (0, [], Raise (Exc TypeError "unhashable type: 'list'"));
  write_statistics := λ _, Ok ()
|}.

(** [c.lower()] and [s.lower()] on ASCII *)
Definition ascii_lower (c : ascii) : ascii :=
  let n := nat_of_ascii c in
  if (65 <=? n) && (n <=? 90) then ascii_of_nat (n + 32) else c.

Fixpoint str_lower (s : string) : string :=
  match s with
  | EmptyString => EmptyString
  | String c s' => String (ascii_lower c) (str_lower s')
  end.

(** A world whose directory cannot be listed. *)
Definition unlistable_world : World := {|
  open_text := open_text demo_world;
  yaml_safe_load := yaml_safe_load demo_world;
  json_load := json_load demo_world;
  bigquery_Client := bigquery_Client demo_world;
  os_listdir := λ _, Raise (Exc OSError
                  "[Errno 2] No such file or directory: 'missing'");
  pd_read_excel := pd_read_excel demo_world;
  pd_read_csv := pd_read_csv demo_world;
  load_table_from_json := load_table_from_json demo_world;
  isoformat := isoformat demo_world;
  strftime := strftime demo_world;
  pandas_other := pandas_other demo_world;
  write_statistics := write_statistics demo_world
|}.

(** The lines printed by the loop over the columns: one warning per entry
    whose source column the file lacks, in the order of the mapping. *)
Definition warnings_of (filename : string) (df : DataFrame scalar)
    (cols : list (string * string)) : list string :=
  flat_map
    (λ entry : string * string,
       match get_column entry.1 df with
       | Some _ => []
       | None => [warning_line entry.1 filename]
       end)
    cols.

(** The identity fields, whose default is None (lines 110-115). *)
Definition core_fields : list string :=
  ["Id"; "FirstName"; "LastName"; "Email"; "Mobile"; "PostCode"].

(** ** Vocabulary of the further properties *)

(** [bigquery.SchemaField(name, field_type, mode=..., fields=...)] *)
Inductive SchemaField :=
| mkField (field_name field_type mode : string) (fields : list SchemaField).

(** Lines 45-61 *)
Definition schema : list SchemaField :=
  [mkField "Id" "STRING" "NULLABLE" [];
   mkField "FirstName" "STRING" "NULLABLE" [];
   mkField "LastName" "STRING" "NULLABLE" [];
   mkField "Email" "STRING" "NULLABLE" [];
   mkField "Mobile" "STRING" "NULLABLE" [];
   mkField "PostCode" "STRING" "NULLABLE" [];
   mkField "DataSource" "STRING" "NULLABLE" [];
   mkField "SourceCreatedDate" "STRING" "NULLABLE" [];
   mkField "SourceModifiedDate" "STRING" "NULLABLE" [];
   mkField "SourceFile" "STRING" "REQUIRED" [];
   mkField "Attributes" "RECORD" "REPEATED"
     [mkField "Key" "STRING" "REQUIRED" [];
      mkField "Value" "STRING" "NULLABLE" []];
   mkField "BQInsertedDate" "TIMESTAMP" "REQUIRED" []].

Definition name_of (f : SchemaField) : string :=
  match f with mkField n _ _ _ => n end.

(** The names of the top-level fields of the schema. *)
Definition schema_names : list string := map name_of schema.

(** A cell holds the value [x] of the input: as it is, or as the float64
    of the integer it is. *)
Definition same_value (x : scalar) (v : cell) : Prop :=
  v = CScalar x ∨ ∃ z, x = SInt z ∧ v = CWidened z.

(** The exception of line 119 on a dataset that is not alignable. *)
Definition alignment_error (df : DataFrame scalar) : exc :=
  if is_multi (index df) then
    if is_unique (index df)
    then Exc TypeError "incompatible index of inserted column with frame index"
    else Exc ValueError "cannot handle a non-unique multi-index!"
  else Exc ValueError "cannot reindex on an axis with duplicate labels".

(** The entries of the columns mapping before the first one that names
    a column of the dataset. *)
Fixpoint leading_absent (df : DataFrame scalar) (cols : list (string * string))
  : list (string * string) :=
  match cols with
  | [] => []
  | entry :: cols' =>
      if has_column entry.1 df then [] else entry :: leading_absent df cols'
  end.

(** The lines that lines 203-209 print for one entry of the statistics. *)
Definition summary_lines (item : string * FileStats) : list string :=
  [newline +:+ "File: " +:+ item.1;
   "Status: " +:+ status_str (status item.2);
   "Total rows: " +:+ str_nat (total_rows item.2);
   "Processed rows: " +:+ str_nat (processed_rows item.2);
   "Failed rows: " +:+ str_nat (failed_rows item.2)]
  ++ match error_message item.2 with
     | Some (String c m) => ["Error: " +:+ String c m]
     | _ => []
     end.

(** Every mapping of the document that validates has a string data source,
    string target fields and string attribute names. *)
Definition typed_document (d : list (string * pyval)) : Prop :=
  ∀ filename file_mapping,
    dict_get filename d = Some file_mapping →
    validate_mapping_config file_mapping filename = Ok true →
    is_Some (file_mapping_of file_mapping).

(** [demo_world] with another answer of [pd.read_csv]. *)
Definition demo_world_reading (df : DataFrame scalar) : World := {|
  open_text := open_text demo_world;
  yaml_safe_load := yaml_safe_load demo_world;
  json_load := json_load demo_world;
  bigquery_Client := bigquery_Client demo_world;
  os_listdir := os_listdir demo_world;
  pd_read_excel := pd_read_excel demo_world;
  pd_read_csv := λ _, Ok df;
  load_table_from_json := load_table_from_json demo_world;
  isoformat := isoformat demo_world;
  strftime := strftime demo_world;
  pandas_other := pandas_other demo_world;
  write_statistics := write_statistics demo_world
|}.

(** ** Dictionaries *)

Section DictFacts.
Context {V : Type}.
Implicit Types (d : list (string * V)) (k : string).

Lemma dict_get_set_eq k (v : V) d : dict_get k (dict_set k v d) = Some v.
Proof.
  induction d as [|[k' w] d IH]; simpl.
  - by rewrite String.eqb_refl.
  - destruct (String.eqb k' k) eqn:E; simpl; rewrite E; auto.
Qed.

Lemma dict_get_set_ne k k' (v : V) d :
  k ≠ k' → dict_get k' (dict_set k v d) = dict_get k' d.
Proof.
  intros Hne. induction d as [|[k0 w] d IH]; simpl.
  - destruct (String.eqb_spec k k'); congruence.
  - destruct (String.eqb_spec k0 k) as [->|Hk0]; simpl.
    + destruct (String.eqb_spec k k'); congruence.
    + destruct (String.eqb_spec k0 k'); auto.
Qed.

Lemma dict_set_set k (v w : V) d :
  dict_set k w (dict_set k v d) = dict_set k w d.
Proof.
  induction d as [|[k' u] d IH]; simpl.
  - by rewrite String.eqb_refl.
  - destruct (String.eqb k' k) eqn:E; simpl; rewrite E; congruence.
Qed.

Lemma dict_mem_get k d :
  dict_mem k d = match dict_get k d with Some _ => true | None => false end.
Proof.
  unfold dict_mem. induction d as [|[k' w] d IH]; simpl; auto.
  rewrite (String.eqb_sym k k'). destruct (String.eqb k' k); auto.
Qed.

Lemma dict_get_map {U} (g : V → U) k d :
  dict_get k (map (λ '(c, s), (c, g s)) d) = g <$> dict_get k d.
Proof.
  induction d as [|[k' w] d IH]; simpl; [done|].
  destruct (String.eqb k' k); auto.
Qed.

Lemma dict_set_map {U} (g : V → U) k (v : V) d :
  map (λ '(c, s), (c, g s)) (dict_set k v d)
  = dict_set k (g v) (map (λ '(c, s), (c, g s)) d).
Proof.
  induction d as [|[k' w] d IH]; simpl; [done|].
  destruct (String.eqb k' k); simpl; congruence.
Qed.
End DictFacts.

(** ** Strings *)

Lemma string_app_nil (b : string) : "" +:+ b = b.
Proof. reflexivity. Qed.

Lemma string_app_cons c (a b : string) : String c a +:+ b = String c (a +:+ b).
Proof. reflexivity. Qed.

Lemma string_app_length (a b : string) :
  String.length (a +:+ b) = String.length a + String.length b.
Proof.
  induction a as [|x a IH]; [done|].
  rewrite string_app_cons. simpl. by rewrite IH.
Qed.

Lemma string_app_assoc (a b c : string) : (a +:+ b) +:+ c = a +:+ (b +:+ c).
Proof.
  induction a as [|x a IH]; [done|].
  by rewrite !string_app_cons, IH.
Qed.


(** Two suffixes of one string that have the same length are equal. *)
Lemma string_app_inv_tail (p q a b : string) :
  String.length a = String.length b → p +:+ a = q +:+ b → a = b.
Proof.
  revert q. induction p as [|c p IH]; intros [|c' q] Hlen H.
  - done.
  - apply (f_equal String.length) in H.
    rewrite string_app_nil, string_app_length in H. simpl in H. lia.
  - apply (f_equal String.length) in H.
    rewrite string_app_nil, string_app_length in H. simpl in H. lia.
  - rewrite !string_app_cons in H. injection H as _ H. eauto.
Qed.

Lemma endswith_spec s suffix :
  endswith s suffix = true ↔ ∃ p, s = p +:+ suffix.
Proof.
  induction s as [|c s IH]; cbn [endswith].
  - rewrite orb_false_r, String.eqb_eq. split.
    + intros <-. by exists "".
    + intros [[|x p] H]; [done|]. by rewrite string_app_cons in H.
  - rewrite orb_true_iff, String.eqb_eq, IH. split.
    + intros [<-|[p ->]]; [by exists ""|by exists (String c p)].
    + intros [[|c' p] H]; [by left|].
      rewrite string_app_cons in H. injection H as -> ->. right. by exists p.
Qed.

Lemma endswith_same_length p s suffix :
  String.length s = String.length suffix →
  endswith (p +:+ s) suffix = String.eqb s suffix.
Proof.
  intros Hlen. destruct (String.eqb_spec s suffix) as [->|Hne].
  - apply endswith_spec. eauto.
  - apply not_true_is_false. rewrite endswith_spec. intros [q H].
    apply Hne. eapply string_app_inv_tail; eauto.
Qed.

(** ** The mapping validator *)

Lemma validate_dict d filename :
  validate_mapping_config (VDict d) filename =
  Ok match dict_get "columns" d with
     | Some (VDict _) =>
         match dict_get "attributes" d with
         | Some (VDict _) | None => true
         | Some _ => false
         end
     | _ => false
     end.
Proof.
  unfold validate_mapping_config, py_contains, py_getitem. cbn.
  rewrite !dict_mem_get.
  destruct (dict_get "columns" d) as [[]|]; cbn; try done;
    destruct (dict_get "attributes" d) as [[]|]; done.
Qed.

(** C3. For every value, mapping or not, [validate_mapping_config] returns
    a boolean and raises nothing.  The boolean is [false] exactly when the
    value is not a mapping, or it has no 'columns' key, or the value under
    'columns' is not a mapping, or it has an 'attributes' key whose value
    is not a mapping; it is [true] in every other case, an empty 'columns'
    mapping included.  The filename plays no part in the result. *)
Theorem validate_mapping_config_spec (mapping : pyval) (filename : string) :
  ∃ b : bool,
    validate_mapping_config mapping filename = Ok b
    ∧ (b = false ↔
         isinstance_dict mapping = false
         ∨ ∃ d, mapping = VDict d
             ∧ (dict_get "columns" d = None
                ∨ (∃ c, dict_get "columns" d = Some c ∧ isinstance_dict c = false)
                ∨ (∃ a, dict_get "attributes" d = Some a
                        ∧ isinstance_dict a = false)))
    ∧ (b = true ↔
         ∃ d cols, mapping = VDict d
           ∧ dict_get "columns" d = Some (VDict cols)
           ∧ (dict_get "attributes" d = None
              ∨ ∃ attrs, dict_get "attributes" d = Some (VDict attrs)))
    ∧ validate_mapping_config (VDict [("columns", VDict [])]) filename = Ok true
    ∧ ∀ other : string, validate_mapping_config mapping other = Ok b.
Proof.
  destruct mapping as [| | | | |l|d];
    try (exists false; split_and!; [done| |naive_solver|done|done];
         split; [by left|done]).
  eexists. split; [apply validate_dict|].
  split_and!; [| |done|intros; apply validate_dict].
  - destruct (dict_get "columns" d) as [c|] eqn:Hc; [|naive_solver].
    destruct c; try naive_solver.
    destruct (dict_get "attributes" d) as [a|] eqn:Ha; [|naive_solver].
    destruct a; naive_solver.
  - destruct (dict_get "columns" d) as [c|] eqn:Hc; [|naive_solver].
    destruct c; try naive_solver.
    destruct (dict_get "attributes" d) as [a|] eqn:Ha; [|naive_solver].
    destruct a; naive_solver.
Qed.

(** ** The mapping loader *)

(** C9, as the code has it.  Every failure of [load_column_mappings] is a
    plain [Exception] whose text is 'Error loading mapping file: ' followed
    by the text of the error underneath: the error of opening the file;
    else, for a suffix other than .yaml, .yml and .json, 'Mapping file must
    be either YAML or JSON'; else the error of the parser.  The failure on
    the suffix has the class of a parse failure and differs from it by its
    text alone. *)
Theorem load_column_mappings_errors (W : World) (mapping_file : string) :
  (∀ e, load_column_mappings W mapping_file = Raise e →
        exc_type e = Exception
        ∧ ∃ detail, exc_str e = load_error_prefix +:+ detail)
  ∧ (∀ e, open_text W mapping_file = Raise e →
        load_column_mappings W mapping_file
        = Raise (Exc Exception (load_error_prefix +:+ exc_str e)))
  ∧ (∀ text, open_text W mapping_file = Ok text →
        endswith_any mapping_file [".yaml"; ".yml"; ".json"] = false →
        load_column_mappings W mapping_file
        = Raise (Exc Exception
            (load_error_prefix +:+ "Mapping file must be either YAML or JSON")))
  ∧ (∀ text e, open_text W mapping_file = Ok text →
        endswith_any mapping_file [".yaml"; ".yml"] = true →
        yaml_safe_load W text = Raise e →
        load_column_mappings W mapping_file
        = Raise (Exc Exception (load_error_prefix +:+ exc_str e)))
  ∧ (∀ text e, open_text W mapping_file = Ok text →
        endswith_any mapping_file [".yaml"; ".yml"] = false →
        endswith mapping_file ".json" = true →
        json_load W text = Raise e →
        load_column_mappings W mapping_file
        = Raise (Exc Exception (load_error_prefix +:+ exc_str e))).
Proof.
  unfold load_column_mappings, try_except, load_error_prefix, endswith_any.
  cbn [existsb]. rewrite !orb_false_r.
  destruct (open_text W mapping_file) as [text|e0] eqn:Hopen; cbn.
  - destruct (endswith mapping_file ".yaml"), (endswith mapping_file ".yml"),
      (endswith mapping_file ".json"); cbn;
      destruct (yaml_safe_load W text) eqn:Hyaml;
      destruct (json_load W text) eqn:Hjson; cbn.
      all: repeat split; intros; simplify_eq/=; eauto; congruence.
  - repeat split; intros; simplify_eq/=; eauto.
Qed.

(** The suffix failure of a file that opens, evaluated. *)
Lemma load_column_mappings_errors_witness :
  load_column_mappings quiet_world "mappings.txt"
  = Raise (Exc Exception
      "Error loading mapping file: Mapping file must be either YAML or JSON").
Proof.
  exact (proj1 (proj2 (proj2 (load_column_mappings_errors quiet_world "mappings.txt")))
           "" eq_refl eq_refl).
Defined.

(** C9, as the specification words it, fails: the error for a suffix that
    is neither YAML nor JSON is the same wrapped [Exception] as the error
    for a document that does not parse, and its text starts with a capital
    letter. *)
Lemma load_column_mappings_format_error_wrapped :
  load_column_mappings quiet_world "mappings.txt"
  = Raise (Exc Exception
      "Error loading mapping file: Mapping file must be either YAML or JSON")
  ∧ load_column_mappings quiet_world "mappings.json"
    = Raise (Exc Exception
        "Error loading mapping file: Expecting value: line 1 column 1 (char 0)")
  ∧ ¬ (∀ e1 e2,
         load_column_mappings quiet_world "mappings.txt" = Raise e1 →
         load_column_mappings quiet_world "mappings.json" = Raise e2 →
         exc_type e1 ≠ exc_type e2
         ∧ String.prefix "error loading mapping file: " (exc_str e2) = true).
Proof.
  split; [reflexivity|]. split; [reflexivity|].
  intros H. destruct (H _ _ eq_refl eq_refl) as [Hne _]. by apply Hne.
Qed.

(** ** Normalisation, row by row *)

Lemma default_frame_row fm filename created modified inserted n idx :
  iloc_to_dict (default_frame fm filename created modified inserted n) idx
  = default_row fm filename created modified inserted.
Proof. reflexivity. Qed.

Lemma default_frame_index fm filename created modified inserted n :
  index (default_frame fm filename created modified inserted n) = range_index n.
Proof. reflexivity. Qed.

Lemma range_index_length n : length (range_index n) = n.
Proof. unfold range_index. by rewrite length_map, length_seq. Qed.

Lemma get_column_row {A} (df : DataFrame A) c idx :
  dict_get c (iloc_to_dict df idx) = (λ s : Series A, s idx) <$> get_column c df.
Proof. unfold iloc_to_dict, get_column. apply (dict_get_map (λ s, s idx)). Qed.

Lemma set_column_row {A} (df : DataFrame A) c s idx :
  iloc_to_dict (set_column c s df) idx = dict_set c (s idx) (iloc_to_dict df idx).
Proof. unfold iloc_to_dict, set_column. cbn. apply (dict_set_map (λ s, s idx)). Qed.

(** A dataset without rows has the index of [new_df]. *)
Lemma empty_index_default (df : DataFrame scalar) :
  length (range_index (len df)) = 0 → index df = range_index (len df).
Proof.
  rewrite range_index_length. unfold len. intros Hlen.
  rewrite Hlen. by destruct (index df).
Qed.

(** The assignment of line 119 raises exactly on a dataset that is not
    alignable, and stores [stored_cell] otherwise. *)
Lemma reindex_for_setitem_spec (df : DataFrame scalar) (series : Series scalar) :
  let r := reindex_for_setitem (index df) series (range_index (len df)) in
  is_ok r = alignable df
  ∧ ∀ values idx, r = Ok values → values idx = stored_cell df series idx.
Proof.
  unfold reindex_for_setitem, alignable, stored_cell. cbv zeta.
  destruct (bool_decide (index df = range_index (len df))) eqn:Hsame; cbn [orb].
  - split; [done|]. by intros values idx [= <-].
  - destruct (Nat.eqb_spec (length (range_index (len df))) 0) as [Hlen|_].
    { apply empty_index_default in Hlen.
      apply bool_decide_eq_false in Hsame. done. }
    destruct (is_multi (index df)), (is_unique (index df)); cbn; split; try done.
    by intros values idx [= <-].
Qed.

Lemma assignable_cons entry cols df :
  assignable (entry :: cols) df
  = if has_column entry.1 df then alignable df else assignable cols df.
Proof.
  unfold assignable. cbn [forallb].
  destruct (has_column entry.1 df), (alignable df); cbn; try done.
Qed.

(** The loop over the columns: whether it raises, what it prints when it
    does not, and the rows of the frame it leaves. *)
Lemma apply_columns_spec filename df cols new_df printed :
  index new_df = range_index (len df) →
  let out := apply_columns filename df cols new_df printed in
  is_ok out.2 = assignable cols df
  ∧ (assignable cols df = true → out.1 = printed ++ warnings_of filename df cols)
  ∧ ∀ new_df', out.2 = Ok new_df' →
      index new_df' = index new_df
      ∧ ∀ idx, iloc_to_dict new_df' idx
               = fold_left (apply_column_at df idx) cols (iloc_to_dict new_df idx).
Proof.
  cbv zeta. revert new_df printed.
  induction cols as [|[source_col target_col] cols IH]; intros new_df printed Hindex.
  - cbn. unfold assignable. cbn. rewrite orb_true_r, app_nil_r.
    split; [done|]. split; [done|]. by intros new_df' [= <-].
  - rewrite assignable_cons. cbn [apply_columns fold_left fst].
    unfold apply_column, apply_column_at at 2, has_column, warnings_of.
    cbn [flat_map fst snd].
    destruct (get_column source_col df) as [series|] eqn:Hcol.
    + unfold set_series. rewrite Hindex.
      destruct (reindex_for_setitem_spec df series) as [Hok Hvalues].
      destruct (reindex_for_setitem _ _ _) as [values|e]; cbn in Hok |- *.
      * destruct (IH (set_column target_col values new_df) printed Hindex)
          as (IHok & IHprinted & IHrows).
        assert (assignable cols df = true) as Hassign.
        { unfold assignable. by rewrite <- Hok. }
        rewrite IHok, Hassign, <- Hok. split; [done|].
        split; [intros _; by apply IHprinted|].
        intros new_df' Hout. destruct (IHrows new_df' Hout) as [Hi Hr].
        split; [rewrite Hi; exact Hindex|]. intros idx.
        by rewrite Hr, set_column_row, (Hvalues values idx eq_refl).
      * rewrite <- Hok. by split_and!.
    + destruct (IH new_df (printed ++ [warning_line source_col filename]) Hindex)
        as (IHok & IHprinted & IHrows).
      split; [done|]. split; [|done].
      intros Hassign. rewrite IHprinted by done. by rewrite <- app_assoc.
Qed.

Lemma fold_append_flat_map {A B} (f : A → list B) (l : list A) (acc : list B) :
  fold_left (λ acc x, acc ++ f x) l acc = acc ++ flat_map f l.
Proof.
  revert acc. induction l as [|x l IH]; intros acc; cbn.
  - by rewrite app_nil_r.
  - by rewrite IH, app_assoc.
Qed.

Lemma row_attributes_of_spec attrs df idx :
  row_attributes_of attrs df idx
  = flat_map (attribute_of (iloc_to_dict df idx)) attrs.
Proof.
  unfold row_attributes_of.
  rewrite <- (app_nil_l (flat_map _ _)), <- fold_append_flat_map.
  generalize (@nil AttributeEntry).
  induction attrs as [|[source_col attr_name] attrs IH]; intros acc; cbn; [done|].
  rewrite IH. f_equal.
  unfold attribute_of. cbn. rewrite get_column_row.
  destruct (get_column source_col df) as [series|]; cbn.
  - destruct (notna (series idx)); [done|by rewrite app_nil_r].
  - by rewrite app_nil_r.
Qed.

Lemma result_mapM_pure {A B} (f : A → result B) (g : A → B) (l : list A) :
  (∀ x, In x l → f x = Ok (g x)) → result_mapM f l = Ok (map g l).
Proof.
  induction l as [|x l IH]; intros H; cbn; [done|].
  rewrite (H x) by (by left). cbn. rewrite IH by (intros; apply H; by right).
  done.
Qed.

Lemma dict_set_Forall {V} (P Q : string * V → Prop) k v d :
  Forall P d → (∀ item, P item → Q item) → Q (k, v) → Forall Q (dict_set k v d).
Proof.
  intros Hd HPQ Hkv. induction Hd as [|[k' w] d Hw Hd IH]; cbn.
  - by constructor.
  - destruct (String.eqb_spec k' k) as [->|]; constructor; auto.
    eapply Forall_impl; eauto.
Qed.

Lemma stored_cell_scalar df series idx key :
  scalar_item (key, stored_cell df series idx).
Proof.
  unfold scalar_item, stored_cell, reindex. cbn [snd].
  destruct (bool_decide _); [done|].
  destruct (_ ≫= _) as [j|]; [|done].
  destruct (series j); try done. by destruct (_ && _).
Qed.

Lemma columns_at_scalar df idx cols r :
  Forall scalar_item r → Forall scalar_item (fold_left (apply_column_at df idx) cols r).
Proof.
  revert r. induction cols as [|entry cols IH]; intros r Hr; cbn; [done|].
  apply IH. unfold apply_column_at.
  destruct (get_column entry.1 df); [|done].
  eapply dict_set_Forall; eauto. apply stored_cell_scalar.
Qed.

Lemma record_at_nullable fm filename created modified inserted df idx :
  Forall nullable_item (record_at fm filename created modified inserted df idx).
Proof.
  unfold record_at.
  eapply dict_set_Forall; [apply columns_at_scalar| |by left].
  - unfold default_row. by repeat constructor.
  - intros item ?. by right.
Qed.

Lemma nullify_nullable item : nullable_item item → nullify item = Ok (nullified item).
Proof.
  destruct item as [key v].
  unfold nullable_item, scalar_item, nullify, nullified. cbn [fst snd].
  intros [->|Hv]; [done|].
  destruct (existsb (String.eqb key) kept_fields); cbn; [done|].
  destruct v as [x|z|l|]; cbn in *; try done. by destruct (isna x).
Qed.

Lemma nth_for_range {A} (f : nat → A) n idx dflt :
  idx < n → nth idx (for_range n f) dflt = f idx.
Proof.
  intros Hidx. unfold for_range.
  rewrite (nth_indep _ dflt (f 0)) by (by rewrite length_map, length_seq).
  rewrite (map_nth f (seq 0 n) 0 idx), seq_nth; auto.
Qed.

Lemma attributes_list_length fm df :
  length (attributes_list_of fm df) = len df.
Proof.
  unfold attributes_list_of, for_range.
  destruct (attributes fm); by rewrite length_map, length_seq.
Qed.

Lemma attributes_list_nth fm df idx :
  idx < len df →
  nth idx (map CList (attributes_list_of fm df)) (CScalar SNaN)
  = CList (row_attributes_row fm (iloc_to_dict df idx)).
Proof.
  intros Hidx.
  rewrite (nth_indep _ _ (CList [])) by
    (by rewrite length_map, attributes_list_length).
  rewrite (map_nth CList). f_equal.
  unfold attributes_list_of, row_attributes_row.
  destruct (attributes fm) as [attrs|]; rewrite nth_for_range by done; [|done].
  apply row_attributes_of_spec.
Qed.

(** Lines 102-140: the frame is built exactly when the loop over the
    columns raises nothing; it then has one row per input row, and its row
    [idx] is [record_at] of [idx]. *)
Lemma build_new_df_spec fm filename created modified inserted df :
  let out := build_new_df fm filename created modified inserted df in
  is_ok out.2 = assignable (columns fm) df
  ∧ (assignable (columns fm) df = true
     → out.1 = warnings_of filename df (columns fm))
  ∧ ∀ new_df, out.2 = Ok new_df →
      len new_df = len df
      ∧ ∀ idx, idx < len df →
          iloc_to_dict new_df idx
          = record_at fm filename created modified inserted df idx.
Proof.
  cbv zeta. unfold build_new_df.
  pose proof (apply_columns_spec filename df (columns fm)
    (default_frame fm filename created modified inserted (len df)) []
    (default_frame_index _ _ _ _ _ _)) as Hcols.
  cbv zeta in Hcols.
  destruct (apply_columns _ _ _ _ _) as [printed [new_df|e]];
    cbn [fst snd] in Hcols |- *; destruct Hcols as (Hok & Hprinted & Hrows).
  - destruct (Hrows new_df eq_refl) as [Hindex Hrow].
    rewrite default_frame_index in Hindex.
    assert (len new_df = len df) as Hlen.
    { unfold len at 1. by rewrite Hindex, range_index_length. }
    unfold mbind, result_bind, set_list.
    rewrite length_map, attributes_list_length, Hlen, Nat.eqb_refl.
    cbn [is_ok]. split; [done|]. split; [done|].
    intros new_df' [= <-]. split; [done|].
    intros idx Hidx. rewrite set_column_row, attributes_list_nth by done.
    by rewrite Hrow, default_frame_row.
  - cbn. split; [done|]. split; [done|]. done.
Qed.

Lemma json_rows_of_spec (new_df : DataFrame cell) :
  (∀ idx, idx < len new_df → Forall nullable_item (iloc_to_dict new_df idx)) →
  json_rows_of new_df
  = Ok (map (λ idx, map nullified (iloc_to_dict new_df idx)) (seq 0 (len new_df))).
Proof.
  intros H. unfold json_rows_of. apply result_mapM_pure.
  intros idx [_ Hidx]%in_seq. apply result_mapM_pure.
  intros item Hitem. apply nullify_nullable.
  specialize (H idx Hidx). rewrite Forall_forall in H. apply H.
  by apply list_elem_of_In.
Qed.

(** The records of [normalize] once the frame is built. *)
Lemma normalize_built fm filename created modified inserted df new_df :
  (build_new_df fm filename created modified inserted df).2 = Ok new_df →
  (normalize fm filename created modified inserted df).2
  = Ok (map (λ idx, map nullified
               (record_at fm filename created modified inserted df idx))
          (seq 0 (len df))).
Proof.
  intros Hbuild. unfold normalize.
  destruct (build_new_df_spec fm filename created modified inserted df)
    as (_ & _ & Hrows).
  destruct (Hrows new_df Hbuild) as [Hlen Hrow].
  destruct (build_new_df _ _ _ _ _ _) as [printed r]. cbn in Hbuild. subst r.
  cbn. rewrite json_rows_of_spec.
  - rewrite Hlen. f_equal. apply map_ext_in.
    intros idx [_ Hidx]%in_seq. by rewrite Hrow.
  - intros idx Hidx. rewrite Hrow by lia. apply record_at_nullable.
Qed.

(** [normalize] raises exactly when the loop over the columns does. *)
Lemma normalize_ok fm filename created modified inserted df :
  is_ok (normalize fm filename created modified inserted df).2
  = assignable (columns fm) df.
Proof.
  destruct (build_new_df_spec fm filename created modified inserted df)
    as (Hok & _ & _).
  destruct (build_new_df fm filename created modified inserted df)
    as [printed [new_df|e]] eqn:Hbuild; cbn in Hok.
  - rewrite (normalize_built fm filename created modified inserted df new_df)
      by (by rewrite Hbuild). done.
  - unfold normalize. rewrite Hbuild. done.
Qed.

(** The rows of [normalize], in closed form. *)
Lemma normalize_rows fm filename created modified inserted df :
  assignable (columns fm) df = true →
  (normalize fm filename created modified inserted df).2
  = Ok (map (λ idx, map nullified
               (record_at fm filename created modified inserted df idx))
          (seq 0 (len df))).
Proof.
  intros Hassign.
  destruct (build_new_df_spec fm filename created modified inserted df)
    as (Hok & _ & _). rewrite Hassign in Hok.
  destruct (build_new_df fm filename created modified inserted df).2
    as [new_df|e] eqn:Hbuild; [|done].
  by apply (normalize_built _ _ _ _ _ _ new_df).
Qed.

Lemma normalize_rows_inv fm filename created modified inserted df rows :
  (normalize fm filename created modified inserted df).2 = Ok rows →
  assignable (columns fm) df = true
  ∧ rows = map (λ idx, map nullified
                  (record_at fm filename created modified inserted df idx))
             (seq 0 (len df)).
Proof.
  intros Hrows.
  assert (assignable (columns fm) df = true) as Hassign.
  { by rewrite <- (normalize_ok fm filename created modified inserted df), Hrows. }
  split; [done|]. rewrite normalize_rows in Hrows by done. congruence.
Qed.

Lemma normalize_printed fm filename created modified inserted df :
  assignable (columns fm) df = true →
  (normalize fm filename created modified inserted df).1
  = warnings_of filename df (columns fm).
Proof.
  intros Hassign.
  destruct (build_new_df_spec fm filename created modified inserted df)
    as (_ & Hprinted & _).
  unfold normalize.
  destruct (build_new_df _ _ _ _ _ _) as [printed r]. cbn in *. auto.
Qed.

(** On a dataset with the default index the record at [idx] is made of
    the input row [idx] alone. *)
Lemma record_at_default fm filename created modified inserted df idx :
  default_index df →
  record_at fm filename created modified inserted df idx
  = raw_record fm filename created modified inserted (iloc_to_dict df idx).
Proof.
  intros Hdefault. unfold record_at, raw_record. f_equal.
  generalize (default_row fm filename created modified inserted).
  induction (columns fm) as [|[source_col target_col] cols IH]; intros r;
    cbn [fold_left]; [done|].
  rewrite IH. f_equal.
  unfold apply_column_at, apply_column_row, stored_cell. cbn [fst snd].
  rewrite get_column_row.
  destruct (get_column source_col df) as [series|]; cbn; [|done].
  by rewrite bool_decide_eq_true_2.
Qed.

Lemma default_index_assignable cols df : default_index df → assignable cols df = true.
Proof.
  intros Hdefault. unfold assignable, alignable.
  by rewrite bool_decide_eq_true_2.
Qed.

Lemma existsb_eqb_In (k : string) (l : list string) :
  existsb (String.eqb k) l = true ↔ In k l.
Proof.
  rewrite existsb_exists. split.
  - intros (x & Hx & ->%String.eqb_eq). done.
  - intros Hk. exists k. by rewrite String.eqb_refl.
Qed.

Lemma nullified_key item : (nullified item).1 = item.1.
Proof.
  unfold nullified. destruct (existsb _ _); [done|]. by destruct (is_missing _).
Qed.

Lemma dict_get_nullified key (r : record) :
  dict_get key (map nullified r) = (λ v, (nullified (key, v)).2) <$> dict_get key r.
Proof.
  induction r as [|[k v] r IH]; cbn; [done|].
  pose proof (nullified_key (k, v)) as Hk.
  destruct (nullified (k, v)) as [k' v'] eqn:E. cbn in Hk. subst k'.
  destruct (String.eqb_spec k key) as [->|]; [|done]. cbn. by rewrite E.
Qed.

Lemma lookup_map_seq {A} (f : nat → A) n idx :
  map f (seq 0 n) !! idx = if decide (idx < n) then Some (f idx) else None.
Proof.
  rewrite list_lookup_fmap. case_decide as Hidx.
  - by rewrite lookup_seq_lt.
  - by rewrite lookup_seq_ge by lia.
Qed.

(** C1. On a dataset with the default index normalisation returns one
    record per input row, in the order of the rows, and record [idx] is
    made of input row [idx] alone; on any dataset the records it returns
    are as many as the input rows.  On a dataset that [pd.read_csv] gave
    the first field of each row as label it does not: line 119 assigns by
    label while the attributes (line 130) and the records (line 144) go by
    position.  With the labels [1; 0] record 0 has the name and phone of
    input row 1 and the attribute of input row 0; with the labels [1; 2]
    record 0 has no name and record 1 the name of input row 0; with the
    names as labels no record has a name; with a repeated label there are
    no records, the assignment raises. *)
Theorem normalize_assigns_by_label :
  (∀ fm filename created modified inserted df,
     default_index df →
     ∃ rows,
       (normalize fm filename created modified inserted df).2 = Ok rows
       ∧ length rows = len df
       ∧ (∀ idx, idx < len df →
            rows !! idx
            = Some (map nullified
                      (raw_record fm filename created modified inserted
                         (iloc_to_dict df idx)))))
  ∧ (∀ fm filename created modified inserted df rows,
       (normalize fm filename created modified inserted df).2 = Ok rows →
       length rows = len df)
  ∧ (normalize people_mapping "a.csv" "t1" "t2" "t3" swapped_df).2
    = Ok [[("DataSource", CScalar (SStr "crm"));
           ("SourceCreatedDate", CScalar (SStr "t1"));
           ("SourceModifiedDate", CScalar (SStr "t2"));
           ("SourceFile", CScalar (SStr "a.csv"));
           ("BQInsertedDate", CScalar (SStr "t3"));
           ("Id", CScalar SNone); ("FirstName", CScalar (SStr "Bob"));
           ("LastName", CScalar SNone); ("Email", CScalar SNone);
           ("Mobile", CScalar (SInt 62)); ("PostCode", CScalar SNone);
           ("Attributes", CList [{| Key := "Nick"; Value := "Ann" |}])];
          [("DataSource", CScalar (SStr "crm"));
           ("SourceCreatedDate", CScalar (SStr "t1"));
           ("SourceModifiedDate", CScalar (SStr "t2"));
           ("SourceFile", CScalar (SStr "a.csv"));
           ("BQInsertedDate", CScalar (SStr "t3"));
           ("Id", CScalar SNone); ("FirstName", CScalar (SStr "Ann"));
           ("LastName", CScalar SNone); ("Email", CScalar SNone);
           ("Mobile", CScalar (SInt 61)); ("PostCode", CScalar SNone);
           ("Attributes", CList [{| Key := "Nick"; Value := "Bob" |}])]]
  ∧ (normalize people_mapping "a.csv" "t1" "t2" "t3" numbered_df).2
    = Ok [[("DataSource", CScalar (SStr "crm"));
           ("SourceCreatedDate", CScalar (SStr "t1"));
           ("SourceModifiedDate", CScalar (SStr "t2"));
           ("SourceFile", CScalar (SStr "a.csv"));
           ("BQInsertedDate", CScalar (SStr "t3"));
           ("Id", CScalar SNone); ("FirstName", CScalar SNone);
           ("LastName", CScalar SNone); ("Email", CScalar SNone);
           ("Mobile", CScalar SNone); ("PostCode", CScalar SNone);
           ("Attributes", CList [{| Key := "Nick"; Value := "Ann" |}])];
          [("DataSource", CScalar (SStr "crm"));
           ("SourceCreatedDate", CScalar (SStr "t1"));
           ("SourceModifiedDate", CScalar (SStr "t2"));
           ("SourceFile", CScalar (SStr "a.csv"));
           ("BQInsertedDate", CScalar (SStr "t3"));
           ("Id", CScalar SNone); ("FirstName", CScalar (SStr "Ann"));
           ("LastName", CScalar SNone); ("Email", CScalar SNone);
           ("Mobile", CWidened 61); ("PostCode", CScalar SNone);
           ("Attributes", CList [{| Key := "Nick"; Value := "Bob" |}])]]
  ∧ (∃ rows,
       (normalize people_mapping "a.csv" "t1" "t2" "t3" shifted_df).2 = Ok rows
       ∧ length rows = 2
       ∧ ∀ row, In row rows →
           dict_get "FirstName" row = Some (CScalar SNone)
           ∧ dict_get "Mobile" row = Some (CScalar SNone))
  ∧ (normalize people_mapping "a.csv" "t1" "t2" "t3" repeated_df).2
    = Raise (Exc ValueError "cannot reindex on an axis with duplicate labels").
Proof.
  split_and!.
  - intros fm filename created modified inserted df Hdefault.
    eexists. split; [apply normalize_rows; by apply default_index_assignable|].
    split; [by rewrite length_map, length_seq|].
    intros idx Hidx. rewrite lookup_map_seq. case_decide; [|done].
    by rewrite record_at_default.
  - intros fm filename created modified inserted df rows
      [_ ->]%normalize_rows_inv.
    by rewrite length_map, length_seq.
  - vm_compute. reflexivity.
  - vm_compute. reflexivity.
  - eexists. split; [vm_compute; reflexivity|]. split; [reflexivity|].
    intros row [<-|[<-|[]]]; split; reflexivity.
  - vm_compute. reflexivity.
Qed.

Lemma row_attributes_row_expected attrs df idx :
  flat_map (attribute_of (iloc_to_dict df idx)) attrs
  = expected_attributes attrs df idx.
Proof.
  unfold expected_attributes. apply flat_map_ext. intros [source_col attr_name].
  unfold attribute_of. cbn. rewrite get_column_row.
  by destruct (get_column source_col df).
Qed.

Lemma expected_attributes_In attrs df idx attr_name value :
  In {| Key := attr_name; Value := value |} (expected_attributes attrs df idx)
  ↔ ∃ source_col series,
      In (source_col, attr_name) attrs
      ∧ get_column source_col df = Some series
      ∧ notna (series idx) = true
      ∧ value = str_scalar (series idx).
Proof.
  unfold expected_attributes. rewrite in_flat_map. split.
  - intros ([source_col name] & Hin & H). cbn in H.
    destruct (get_column source_col df) as [series|] eqn:Hcol; [|done].
    destruct (notna (series idx)) eqn:Hna; [|done].
    destruct H as [H|[]]. simplify_eq. eauto 10.
  - intros (source_col & series & Hin & Hcol & Hna & ->).
    exists (source_col, attr_name). split; [done|]. cbn.
    rewrite Hcol, Hna. by left.
Qed.

(** C2. For every dataset, every file mapping and every row index, the
    Attributes field of the output record holds, when the mapping has an
    attributes mapping, an entry [{Key: attrName, Value: str(value)}] for
    a pair [(sourceCol, attrName)] exactly when [sourceCol] is a column of
    the dataset and the value of the row there is not missing
    ([pd.notna]), the entries following the order of the attributes
    mapping; without an attributes key the field is the empty list.
    There are output records, one per row, exactly when the loop over the
    columns (line 119) raises nothing. *)
Theorem normalize_attributes (fm : FileMapping) (filename : string)
    (created modified inserted : string) (df : DataFrame scalar) :
  ((∃ rows, (normalize fm filename created modified inserted df).2 = Ok rows)
   ↔ assignable (columns fm) df = true)
  ∧ ∀ rows,
      (normalize fm filename created modified inserted df).2 = Ok rows →
      length rows = len df
      ∧ ∀ idx row, rows !! idx = Some row →
          ∃ entries,
            dict_get "Attributes" row = Some (CList entries)
            ∧ match attributes fm with
              | Some attrs =>
                  entries = expected_attributes attrs df idx
                  ∧ ∀ attr_name value,
                      In {| Key := attr_name; Value := value |} entries
                      ↔ ∃ source_col series,
                          In (source_col, attr_name) attrs
                          ∧ get_column source_col df = Some series
                          ∧ notna (series idx) = true
                          ∧ value = str_scalar (series idx)
              | None => entries = []
              end.
Proof.
  split.
  { split; [intros [rows [Hassign _]%normalize_rows_inv]; exact Hassign|].
    intros Hassign. eexists. by apply normalize_rows. }
  intros rows [_ ->]%normalize_rows_inv.
  split; [by rewrite length_map, length_seq|].
  intros idx row. rewrite lookup_map_seq. case_decide as Hidx; [|done].
  intros [= <-]. eexists. split.
  - rewrite dict_get_nullified. unfold record_at. by rewrite dict_get_set_eq.
  - unfold row_attributes_row. destruct (attributes fm) as [attrs|]; [|done].
    rewrite row_attributes_row_expected. split; [done|].
    intros. apply expected_attributes_In.
Qed.

Lemma normalize_attributes_witness :
  ∃ rows,
    (normalize sample_mapping "a.csv" "t1" "t2" "t3" sample_df).2 = Ok rows
    ∧ (∃ row, rows !! 0 = Some row
         ∧ dict_get "Attributes" row
           = Some (CList [{| Key := "Age"; Value := "30.0" |};
                          {| Key := "Nick"; Value := "Ann" |}]))
    ∧ (∃ row, rows !! 1 = Some row
         ∧ dict_get "Attributes" row = Some (CList [])).
Proof.
  destruct (normalize_attributes sample_mapping "a.csv" "t1" "t2" "t3" sample_df)
    as [Hsome Hattr].
  destruct (proj2 Hsome eq_refl) as [rows Hrows].
  exists rows. split; [exact Hrows|].
  destruct (Hattr rows Hrows) as [Hlen Hrow].
  destruct rows as [|row0 [|row1 rows]]; [discriminate Hlen..|].
  split.
  - exists row0. split; [reflexivity|].
    destruct (Hrow 0 row0 eq_refl) as (entries & -> & -> & _). reflexivity.
  - exists row1. split; [reflexivity|].
    destruct (Hrow 1 row1 eq_refl) as (entries & -> & -> & _). reflexivity.
Defined.

(** C6. For every record emitted and every field of it other than
    BQInsertedDate, SourceFile and Attributes: a value that is missing
    (None or NaN, which is how a blank cell is read) or that is a Series or
    DataFrame object is replaced by None, and any other value is kept.
    So no such field of an emitted record holds NaN or a vector.  The
    frame of lines 102-140 is built exactly when the loop over the columns
    (line 119) raises nothing, and its records are then emitted. *)
Theorem normalize_nulls (fm : FileMapping) (filename : string)
    (created modified inserted : string) (df : DataFrame scalar) :
  ((∃ new_df,
      (build_new_df fm filename created modified inserted df).2 = Ok new_df)
   ↔ assignable (columns fm) df = true)
  ∧ ∀ new_df,
      (build_new_df fm filename created modified inserted df).2 = Ok new_df →
      ∃ rows,
        (normalize fm filename created modified inserted df).2 = Ok rows
        ∧ length rows = len df
        ∧ ∀ idx row, rows !! idx = Some row →
            (∀ key series,
               ¬ In key kept_fields → get_column key new_df = Some series →
               dict_get key row
               = Some (if is_series_or_frame (series idx) then CScalar SNone
                       else if is_missing (series idx) then CScalar SNone
                       else series idx))
            ∧ (∀ key v,
                 In (key, v) row → ¬ In key kept_fields →
                 is_missing v = true → v = CScalar SNone).
Proof.
  destruct (build_new_df_spec fm filename created modified inserted df)
    as (Hok & _ & Hbuilt).
  split.
  - rewrite <- Hok.
    destruct (build_new_df _ _ _ _ _ _).2 as [new_df|e]; cbn.
    + split; [done|]. intros _. by eexists.
    + split; [by intros [new_df ?]|done].
  - intros new_df Hbuild. destruct (Hbuilt new_df Hbuild) as [Hlen Hrows].
    eexists. split; [by apply (normalize_built _ _ _ _ _ _ new_df)|].
    split; [by rewrite length_map, length_seq|].
    intros idx row. rewrite lookup_map_seq. case_decide as Hidx; [|done].
    intros [= <-]. rewrite <- Hrows by done. split.
    + intros key series Hkey Hcol.
      assert (existsb (String.eqb key) kept_fields = false) as E.
      { apply not_true_is_false. by rewrite existsb_eqb_In. }
      rewrite dict_get_nullified, get_column_row, Hcol.
      unfold nullified. cbn [fst snd fmap option_fmap option_map]. rewrite E.
      f_equal. destruct (series idx) as [x|z|l|]; cbn; try done. by destruct (isna x).
    + intros key v [[k v0] [Heq Hin]]%in_map_iff Hkey Hmiss.
      pose proof (nullified_key (k, v0)) as Hk. rewrite Heq in Hk. cbn in Hk. subst k.
      assert (existsb (String.eqb key) kept_fields = false) as E.
      { apply not_true_is_false. by rewrite existsb_eqb_In. }
      unfold nullified in Heq. cbn [fst snd] in Heq. rewrite E in Heq.
      destruct (is_missing v0) eqn:Hv0; simplify_eq; [done|congruence].
Qed.

Lemma normalize_nulls_witness :
  ∃ rows,
    (normalize sample_mapping "a.csv" "t1" "t2" "t3" sample_df).2 = Ok rows
    ∧ (∃ row, rows !! 1 = Some row
         ∧ dict_get "FirstName" row = Some (CScalar SNone)
         ∧ dict_get "Id" row = Some (CScalar (SInt 2))).
Proof.
  destruct (normalize_nulls sample_mapping "a.csv" "t1" "t2" "t3" sample_df)
    as [Hsome Hnull].
  destruct (proj2 Hsome eq_refl) as [new_df Hbuild].
  destruct (Hnull new_df Hbuild) as (rows & Hrows & Hlen & Hrow).
  exists rows. split; [exact Hrows|].
  destruct rows as [|row0 [|row1 rows]]; [discriminate Hlen..|].
  exists row1. split; [reflexivity|].
  destruct (Hrow 1 row1 eq_refl) as [Hcol _].
  injection Hbuild as <-.
  split.
  - refine (Hcol "FirstName" _ _ eq_refl). cbn. intuition discriminate.
  - refine (Hcol "Id" _ _ eq_refl). cbn. intuition discriminate.
Defined.

(** ** One file: the body of the loop, evaluated *)

Lemma stats_update_set filename g entry s c ev :
  stats_update filename g (mkState (dict_set filename entry s) c ev)
  = (Ok (), mkState (dict_set filename (g entry) s) c ev).
Proof.
  unfold stats_update. cbn. by rewrite dict_get_set_eq, dict_set_set.
Qed.

Lemma for_each_print lines st :
  for_each print lines st
  = (Ok (), mkState (stats st) (clock st) (events st ++ map EvPrint lines)).
Proof.
  revert st. induction lines as [|line lines IH]; intros [s c ev].
  - cbn. by rewrite app_nil_r.
  - change (for_each print (line :: lines) (mkState s c ev))
      with (for_each print lines (mkState s c (ev ++ [EvPrint line]))).
    rewrite IH. cbn. by rewrite <- app_assoc.
Qed.

Ltac run_file :=
  unfold mbind, mret, Run_bind, Run_ret;
  repeat (cbn -[stats_update for_each read_file normalize_step
                validate_mapping_config py_contains py_getitem
                endswith_any endswith path_join try_except_finally];
          rewrite ?stats_update_set, ?for_each_print).

Lemma process_file_unsupported W directory table_ref mappings filename st :
  endswith_any filename [".xlsx"; ".csv"] = false →
  process_file W directory table_ref mappings filename st
  = (Ok (),
     mkState
       (dict_set filename (stopped W (clock st) skipped "Not a supported file type")
          (stats st))
       (S (clock st)) (events st)).
Proof.
  intros Hext. unfold process_file. run_file. rewrite Hext. by run_file.
Qed.

Lemma process_file_unmapped W directory table_ref d filename st :
  endswith_any filename [".xlsx"; ".csv"] = true →
  dict_get filename d = None →
  process_file W directory table_ref (VDict d) filename st
  = (Ok (),
     mkState
       (dict_set filename
          (stopped W (clock st) skipped "No mapping configuration found") (stats st))
       (S (clock st)) (events st)).
Proof.
  intros Hext Hmap. unfold process_file. run_file. rewrite Hext.
  unfold py_contains. rewrite dict_mem_get, Hmap. by run_file.
Qed.

Lemma process_file_invalid W directory table_ref d filename file_mapping st :
  endswith_any filename [".xlsx"; ".csv"] = true →
  dict_get filename d = Some file_mapping →
  validate_mapping_config file_mapping filename = Ok false →
  process_file W directory table_ref (VDict d) filename st
  = (Ok (),
     mkState
       (dict_set filename
          (stopped W (clock st) failed "Invalid mapping configuration") (stats st))
       (S (clock st)) (events st)).
Proof.
  intros Hext Hmap Hvalid. unfold process_file. run_file. rewrite Hext.
  unfold py_contains, py_getitem. rewrite dict_mem_get, Hmap. run_file.
  rewrite Hvalid. by run_file.
Qed.

Lemma read_file_run W filename filepath st :
  endswith_any filename [".xlsx"; ".csv"] = true →
  read_file W filename filepath st
  = (read_result W filename filepath,
     mkState (stats st) (clock st) (events st ++ [read_event filename filepath])).
Proof.
  unfold endswith_any, read_file, read_result, read_event. cbn [existsb].
  rewrite orb_false_r. intros Hext.
  destruct (endswith filename ".xlsx"); [by run_file|].
  cbn in Hext. rewrite Hext. by run_file.
Qed.

Lemma normalize_step_run W file_mapping filename df st :
  normalize_step W file_mapping filename df st
  = let '(ticks, printed, json_rows) :=
      norm_outcome W file_mapping filename df (clock st) in
    (json_rows,
     mkState (stats st) (ticks + clock st) (events st ++ map EvPrint printed)).
Proof.
  unfold normalize_step, norm_outcome.
  destruct (file_mapping_of file_mapping) as [fm|].
  - run_file. destruct (normalize _ _ _ _ _ _) as [printed json_rows].
    by run_file.
  - destruct (pandas_other W file_mapping filename df) as [[ticks printed] json_rows].
    by run_file.
Qed.

Lemma process_file_tried W directory table_ref d filename file_mapping st :
  endswith_any filename [".xlsx"; ".csv"] = true →
  dict_get filename d = Some file_mapping →
  validate_mapping_config file_mapping filename = Ok true →
  process_file W directory table_ref (VDict d) filename st
  = let '(entry, c, evs) :=
      tried W table_ref file_mapping filename (path_join directory filename)
        (clock st) in
    (Ok (), mkState (dict_set filename entry (stats st)) c (events st ++ evs)).
Proof.
  intros Hext Hmap Hvalid. unfold process_file. run_file. rewrite Hext.
  unfold py_contains, py_getitem. rewrite dict_mem_get, Hmap. run_file.
  rewrite Hvalid. run_file.
  unfold try_except_finally, try_body, on_error, on_exit, tried. run_file.
  rewrite read_file_run by done. cbn [stats clock events].
  destruct (read_result W filename _) as [df|e]; run_file.
  - rewrite normalize_step_run. cbn [stats clock events].
    destruct (norm_outcome _ _ _ _ _) as [[ticks printed] [rows|e]]; run_file.
    + destruct (load_table_from_json W rows table_ref) as [u|e]; run_file;
        by rewrite <- ?app_assoc.
    + by rewrite <- ?app_assoc.
  - by rewrite <- ?app_assoc.
Qed.

Lemma validate_total mapping filename :
  ∃ b, validate_mapping_config mapping filename = Ok b.
Proof.
  destruct mapping; try (by exists false).
  eexists. apply validate_dict.
Qed.

Lemma process_file_step W directory table_ref d filename st :
  process_file W directory table_ref (VDict d) filename st
  = let '(entry, c, evs) := file_step W directory table_ref d filename (clock st) in
    (Ok (), mkState (dict_set filename entry (stats st)) c (events st ++ evs)).
Proof.
  unfold file_step.
  destruct (endswith_any filename [".xlsx"; ".csv"]) eqn:Hext; cbn [negb].
  - destruct (dict_get filename d) as [file_mapping|] eqn:Hmap.
    + destruct (validate_total file_mapping filename) as [[|] Hvalid]; rewrite Hvalid.
      * by apply process_file_tried.
      * erewrite process_file_invalid by done. by rewrite app_nil_r.
    + rewrite process_file_unmapped by done. by rewrite app_nil_r.
  - rewrite process_file_unsupported by done. by rewrite app_nil_r.
Qed.

(** ** The loop over the directory *)

Section Loop.
Context (W : World) (directory table_ref : string) (d : list (string * pyval)).

Let body := process_file W directory table_ref (VDict d).
Let step := file_step W directory table_ref d.

(** The loop never raises; each file of the listing ends with the entry
    of one of its turns, the last; other entries are untouched; the
    calls made are those of the turns, after those made before. *)
Lemma for_each_files files : ∀ st,
  ∃ st',
    for_each body files st = (Ok (), st')
    ∧ (∀ f, In f files →
         ∃ t, dict_get f (stats st') = Some (step f t).1.1
              ∧ ∀ ev, In ev (step f t).2 → In ev (events st'))
    ∧ (∀ f, ¬ In f files → dict_get f (stats st') = dict_get f (stats st))
    ∧ (∀ ev, In ev (events st) → In ev (events st'))
    ∧ (∀ ev, In ev (events st') →
         In ev (events st) ∨ ∃ f t, In f files ∧ In ev (step f t).2).
Proof.
  induction files as [|g files IH]; intros st.
  - exists st. cbn. naive_solver.
  - cbn [for_each]. unfold mbind, Run_bind.
    pose proof (process_file_step W directory table_ref d g st) as Hg.
    fold body in Hg. fold (step g (clock st)) in Hg.
    destruct (step g (clock st)) as [[entry c] evs] eqn:Hstep.
    rewrite Hg.
    destruct (IH (mkState (dict_set g entry (stats st)) c (events st ++ evs)))
      as (st' & Hrun & Hin & Hout & Hmono & Hevs).
    cbn [stats clock events] in *.
    exists st'. split; [done|]. repeat split.
    + intros f Hf.
      destruct (in_dec String.eq_dec f files) as [Hfiles|Hfiles]; [by apply Hin|].
      destruct Hf as [->|]; [|done].
      exists (clock st). rewrite Hstep. cbn. split.
      * by rewrite (Hout f Hfiles), dict_get_set_eq.
      * intros ev Hev. apply Hmono, in_or_app. by right.
    + intros f Hf. rewrite Hout by (intros ?; apply Hf; by right).
      apply dict_get_set_ne. intros ->. apply Hf. by left.
    + intros ev Hev. apply Hmono, in_or_app. by left.
    + intros ev Hev. destruct (Hevs ev Hev) as [Hold|(f & t & Hf & Hstepf)].
      * apply in_app_or in Hold as [?|Hnew]; [by left|].
        right. exists g, (clock st). rewrite Hstep. split; [by left|done].
      * right. exists f, t. split; [by right|done].
Qed.
End Loop.

(** [process_files] when the client is created, the mapping document
    loads as a [dict] and the directory is listed. *)
Lemma process_files_run W directory mapping_file project_id dataset_id table_id
    d files st :
  is_ok (bigquery_Client W project_id) = true →
  load_column_mappings W mapping_file = Ok (VDict d) →
  os_listdir W directory = Ok files →
  let table_ref := project_id +:+ "." +:+ dataset_id +:+ "." +:+ table_id in
  let step := file_step W directory table_ref d in
  ∃ st',
    process_files W directory mapping_file project_id dataset_id table_id st
    = (Ok (stats st'), st')
    ∧ (∀ f, In f files →
         ∃ t, dict_get f (stats st') = Some (step f t).1.1
              ∧ ∀ ev, In ev (step f t).2 → In ev (events st'))
    ∧ (∀ f, ¬ In f files → dict_get f (stats st') = None)
    ∧ (∀ ev, In ev (events st') →
         In ev (events st) ∨ ∃ f t, In f files ∧ In ev (step f t).2).
Proof.
  intros Hclient Hload Hlist table_ref step. subst table_ref step.
  unfold process_files. run_file.
  destruct (bigquery_Client W project_id) as [u|]; [|done].
  rewrite Hload, Hlist. run_file.
  destruct (for_each_files W directory
              (project_id +:+ "." +:+ dataset_id +:+ "." +:+ table_id) d files
              (mkState [] (clock st) (events st)))
    as (st' & Hrun & Hin & Hout & Hmono & Hevs).
  rewrite Hrun. cbn [stats_read]. exists st'. repeat split; auto.
Qed.

(** ** Which files are parsed *)








(** ** The extension check and letter case *)

Lemma str_lower_length s : String.length (str_lower s) = String.length s.
Proof. induction s; cbn; auto. Qed.

Lemma case_variant_unsupported stem ext :
  str_lower ext = ".csv" ∨ str_lower ext = ".xlsx" →
  ext ≠ ".csv" → ext ≠ ".xlsx" →
  endswith_any (stem +:+ ext) [".xlsx"; ".csv"] = false.
Proof.
  intros Hlow Hcsv Hxlsx. unfold endswith_any. cbn [existsb].
  rewrite orb_false_r. apply orb_false_intro.
  - destruct Hlow as [Hlow|Hlow];
      pose proof (str_lower_length ext) as Hlen; rewrite Hlow in Hlen; cbn in Hlen.
    + apply not_true_is_false. rewrite endswith_spec. intros [q Hq].
      change (q +:+ ".xlsx") with (q +:+ ("." +:+ "xlsx")) in Hq.
      rewrite <- string_app_assoc in Hq.
      apply string_app_inv_tail in Hq; [|done]. by subst.
    + rewrite endswith_same_length by done. by apply String.eqb_neq.
  - destruct Hlow as [Hlow|Hlow];
      pose proof (str_lower_length ext) as Hlen; rewrite Hlow in Hlen; cbn in Hlen.
    + rewrite endswith_same_length by done. by apply String.eqb_neq.
    + apply not_true_is_false. rewrite endswith_spec. intros [q Hq].
      destruct ext as [|c ext']; [done|].
      change (String c ext') with ((String c "") +:+ ext') in Hq.
      rewrite <- string_app_assoc in Hq.
      apply string_app_inv_tail in Hq; [|cbn in *; lia]. by subst.
Qed.

(** C10. The extension check is case-sensitive.  A file of the listing
    whose name ends in a spelling of '.csv' or '.xlsx' that differs from
    it in letter case alone ends 'skipped' with 'Not a supported file
    type', whether or not the mapping document has an entry for it. *)
Theorem process_files_extension_case_sensitive (W : World)
    (directory mapping_file project_id dataset_id table_id : string)
    (d : list (string * pyval)) (files : list string) (t0 : nat)
    (stem ext : string) :
  is_ok (bigquery_Client W project_id) = true →
  load_column_mappings W mapping_file = Ok (VDict d) →
  os_listdir W directory = Ok files →
  In (stem +:+ ext) files →
  str_lower ext = ".csv" ∨ str_lower ext = ".xlsx" →
  ext ≠ ".csv" → ext ≠ ".xlsx" →
  ∃ st' entry,
    process_files W directory mapping_file project_id dataset_id table_id
      (init_state t0) = (Ok (stats st'), st')
    ∧ dict_get (stem +:+ ext) (stats st') = Some entry
    ∧ status entry = skipped
    ∧ error_message entry = Some "Not a supported file type".
Proof.
  intros Hclient Hload Hlist Hf Hlow Hcsv Hxlsx.
  destruct (process_files_run W directory mapping_file project_id dataset_id
              table_id d files (init_state t0) Hclient Hload Hlist)
    as (st' & Hrun & Hin & _ & _).
  destruct (Hin _ Hf) as (t & Hentry & _).
  exists st'. eexists. split; [done|]. split; [done|].
  unfold file_step. by rewrite case_variant_unsupported.
Qed.

Lemma process_files_extension_case_sensitive_witness :
  dict_get "DATA.CSV" demo_doc = Some (VDict [("columns", VDict [("id", VStr "Id")])])
  ∧ ∃ st' entry,
      process_files demo_world "in" "mappings.yaml" "p" "d" "t" (init_state 0)
      = (Ok (stats st'), st')
      ∧ dict_get "DATA.CSV" (stats st') = Some entry
      ∧ status entry = skipped
      ∧ error_message entry = Some "Not a supported file type".
Proof.
  split; [reflexivity|].
  apply (process_files_extension_case_sensitive demo_world "in" "mappings.yaml"
           "p" "d" "t" demo_doc demo_files 0 "DATA" ".CSV" eq_refl eq_refl eq_refl).
  - cbn. tauto.
  - left. reflexivity.
  - discriminate.
  - discriminate.
Defined.

(** ** Timestamps of an entry *)

(** Every turn of the loop stamps [start_time]; only a turn that enters the
    [try] stamps [end_time]. *)
Lemma file_step_times W directory table_ref d f t :
  let entry := (file_step W directory table_ref d f t).1.1 in
  start_time entry = Some (isoformat W t)
  ∧ failed_rows entry = 0
  ∧ status entry ≠ not_processed
  ∧ (reaches_try d f → is_Some (end_time entry))
  ∧ (¬ reaches_try d f → end_time entry = None).
Proof.
  unfold file_step, reaches_try.
  destruct (endswith_any f [".xlsx"; ".csv"]); cbn [negb].
  2:{ cbn. repeat split; try done. by intros []. }
  destruct (dict_get f d) as [file_mapping|].
  2:{ cbn. repeat split; try done. by intros (_ & ? & ? & _). }
  destruct (validate_mapping_config file_mapping f) as [[|]|] eqn:Hvalid.
  2,3: cbn; repeat split; try done; intros (_ & ? & ? & ?); congruence.
  assert (true = true ∧ ∃ fm, Some file_mapping = Some fm
            ∧ validate_mapping_config fm f = Ok true) as Hreach by eauto.
  unfold tried.
  destruct (read_result W f _) as [df|e]; cbn.
  - destruct (norm_outcome _ _ _ _ _) as [[ticks printed] [rows|e]].
    + destruct (load_table_from_json W rows table_ref); cbn;
        repeat split; done.
    + cbn. repeat split; done.
  - repeat split; done.
Qed.

(** C5 fails on the code: the three exits taken before the [try] leave
    [end_time] unset, while the exits through the [finally] clause set it.
    Here on a directory with a text file, a file without mapping and a file
    with an invalid mapping, next to a file that loads and one that does
    not parse. *)
Theorem process_files_end_time_unset_before_try :
  let run := process_files demo_world "in" "mappings.yaml" "p" "d" "t" (init_state 0) in
  run.1 = Ok (stats run.2)
  ∧ dict_get "b.txt" (stats run.2)
    = Some (mkStats 0 0 0 skipped (Some "Not a supported file type") (Some "5") None)
  ∧ dict_get "c.csv" (stats run.2)
    = Some (mkStats 0 0 0 skipped (Some "No mapping configuration found")
              (Some "6") None)
  ∧ dict_get "d.csv" (stats run.2)
    = Some (mkStats 0 0 0 failed (Some "Invalid mapping configuration")
              (Some "7") None)
  ∧ dict_get "a.csv" (stats run.2)
    = Some (mkStats 2 2 0 success None (Some "0") (Some "4"))
  ∧ dict_get "e.xlsx" (stats run.2)
    = Some (mkStats 0 0 0 failed (Some "File is not a zip file") (Some "9")
              (Some "10")).
Proof. cbv zeta. split_and!; vm_compute; reflexivity. Qed.

(** ** Exceptions: what is caught and what propagates *)

Lemma main_exit_on_raise W directory mapping_file project_id dataset_id table_id
    output_file st e :
  (process_files W directory mapping_file project_id dataset_id table_id st).1
  = Raise e →
  (main W directory mapping_file project_id dataset_id table_id output_file st).1
  = Ok 1.
Proof.
  unfold main, try_catch, mbind, Run_bind. intros H.
  destruct (process_files _ _ _ _ _ _ st) as [[stats|e'] st1]; [done|].
  by run_file.
Qed.

(** What [tried] leaves in the entry when the reader, the normalisation or
    the load raises. *)
Lemma tried_failures W table_ref file_mapping filename filepath t :
  let entry := (tried W table_ref file_mapping filename filepath t).1.1 in
  (∀ e, read_result W filename filepath = Raise e →
        entry = mkStats 0 0 0 failed (Some (exc_str e)) (start_time entry)
                  (end_time entry))
  ∧ (∀ df ticks printed e,
        read_result W filename filepath = Ok df →
        norm_outcome W file_mapping filename df (S t) = (ticks, printed, Raise e) →
        entry = mkStats (len df) 0 0 failed (Some (exc_str e)) (start_time entry)
                  (end_time entry))
  ∧ (∀ df ticks printed rows e,
        read_result W filename filepath = Ok df →
        norm_outcome W file_mapping filename df (S t) = (ticks, printed, Ok rows) →
        load_table_from_json W rows table_ref = Raise e →
        entry = mkStats (len df) 0 0 failed (Some (exc_str e)) (start_time entry)
                  (end_time entry))
  ∧ (∀ df ticks printed rows,
        read_result W filename filepath = Ok df →
        norm_outcome W file_mapping filename df (S t) = (ticks, printed, Ok rows) →
        is_ok (load_table_from_json W rows table_ref) = true →
        entry = mkStats (len df) (length rows) 0 success None (start_time entry)
                  (end_time entry)).
Proof.
  cbv zeta. unfold tried. split_and!.
  - intros e Hread. by rewrite Hread.
  - intros df ticks printed e Hread Hnorm. by rewrite Hread, Hnorm.
  - intros df ticks printed rows e Hread Hnorm Hsink.
    by rewrite Hread, Hnorm, Hsink.
  - intros df ticks printed rows Hread Hnorm Hsink. rewrite Hread, Hnorm.
    by destruct (load_table_from_json W rows table_ref).
Qed.

(** C8, as the code has it.  An exception raised by the reader, by the
    normalisation or by the load is caught at the file: the entry becomes
    'failed' with the text of the exception, [processed_rows] and
    [failed_rows] stay 0, [total_rows] is the row count once the file was
    read, and the loop goes on, so every file of the listing has a
    processed entry.  What is raised outside the [try] leaves
    [process_files]: the error of creating the client, of loading the
    mapping document, of listing the directory, and of looking a filename
    up in a loaded document that is no mapping (an empty YAML file loads as
    None); [main] then exits with status 1. *)
Theorem process_files_error_handling (W : World)
    (directory mapping_file project_id dataset_id table_id output_file : string)
    (st : State) :
  let table_ref := project_id +:+ "." +:+ dataset_id +:+ "." +:+ table_id in
  let run := process_files W directory mapping_file project_id dataset_id table_id st in
  (∀ e, bigquery_Client W project_id = Raise e → run.1 = Raise e)
  ∧ (∀ e, is_ok (bigquery_Client W project_id) = true →
          load_column_mappings W mapping_file = Raise e → run.1 = Raise e)
  ∧ (∀ mappings e, is_ok (bigquery_Client W project_id) = true →
          load_column_mappings W mapping_file = Ok mappings →
          os_listdir W directory = Raise e → run.1 = Raise e)
  ∧ (∀ mappings f files e, is_ok (bigquery_Client W project_id) = true →
          load_column_mappings W mapping_file = Ok mappings →
          os_listdir W directory = Ok (f :: files) →
          endswith_any f [".xlsx"; ".csv"] = true →
          py_contains mappings f = Raise e → run.1 = Raise e)
  ∧ (∀ e, run.1 = Raise e →
          (main W directory mapping_file project_id dataset_id table_id
             output_file st).1 = Ok 1)
  ∧ (∀ d files,
       is_ok (bigquery_Client W project_id) = true →
       load_column_mappings W mapping_file = Ok (VDict d) →
       os_listdir W directory = Ok files →
       run.1 = Ok (stats run.2)
       ∧ ∀ f, In f files →
           ∃ entry t,
             dict_get f (stats run.2) = Some entry
             ∧ status entry ≠ not_processed
             ∧ failed_rows entry = 0
             ∧ ∀ file_mapping,
                 endswith_any f [".xlsx"; ".csv"] = true →
                 dict_get f d = Some file_mapping →
                 validate_mapping_config file_mapping f = Ok true →
                 let filepath := path_join directory f in
                 is_Some (end_time entry)
                 ∧ (∀ e, read_result W f filepath = Raise e →
                      status entry = failed
                      ∧ error_message entry = Some (exc_str e)
                      ∧ processed_rows entry = 0
                      ∧ total_rows entry = 0)
                 ∧ (∀ df ticks printed e,
                      read_result W f filepath = Ok df →
                      norm_outcome W file_mapping f df (S t)
                      = (ticks, printed, Raise e) →
                      status entry = failed
                      ∧ error_message entry = Some (exc_str e)
                      ∧ processed_rows entry = 0
                      ∧ total_rows entry = len df)
                 ∧ (∀ df ticks printed rows e,
                      read_result W f filepath = Ok df →
                      norm_outcome W file_mapping f df (S t)
                      = (ticks, printed, Ok rows) →
                      load_table_from_json W rows table_ref = Raise e →
                      status entry = failed
                      ∧ error_message entry = Some (exc_str e)
                      ∧ processed_rows entry = 0
                      ∧ total_rows entry = len df)).
Proof.
  intros table_ref run. subst table_ref run. split_and!.
  - intros e He. unfold process_files. run_file. by rewrite He.
  - intros e Hc He. unfold process_files. run_file.
    destruct (bigquery_Client W project_id); [|done]. by rewrite He.
  - intros mappings e Hc Hm He. unfold process_files. run_file.
    destruct (bigquery_Client W project_id); [|done]. rewrite Hm. run_file.
    by rewrite He.
  - intros mappings f files e Hc Hm Hl Hext He. unfold process_files. run_file.
    destruct (bigquery_Client W project_id); [|done]. rewrite Hm, Hl. run_file.
    unfold for_each, process_file. run_file. rewrite Hext. run_file.
    by rewrite He.
  - apply main_exit_on_raise.
  - intros d files Hclient Hload Hlist.
    destruct (process_files_run W directory mapping_file project_id dataset_id
                table_id d files st Hclient Hload Hlist)
      as (st' & Hrun & Hin & _ & _).
    rewrite Hrun. cbn [fst snd]. split; [done|].
    intros f Hf. destruct (Hin f Hf) as (t & Hentry & _).
    eexists. exists t. split; [exact Hentry|].
    pose proof (file_step_times W directory
      (project_id +:+ "." +:+ dataset_id +:+ "." +:+ table_id) d f t)
      as (_ & Hfailed & Hstatus & Hend & _).
    split; [done|]. split; [done|].
    intros file_mapping Hext Hmap Hvalid. cbv zeta.
    split; [apply Hend; split; eauto|].
    clear Hend Hstatus Hfailed Hentry.
    unfold file_step. rewrite Hext, Hmap, Hvalid. cbn [negb].
    pose proof (tried_failures W
      (project_id +:+ "." +:+ dataset_id +:+ "." +:+ table_id)
      file_mapping f (path_join directory f) t) as (Hread & Hnorm & Hsink & _).
    split_and!.
    + intros e He. by rewrite (Hread e He).
    + intros df ticks printed e Hdf He. by rewrite (Hnorm df ticks printed e Hdf He).
    + intros df ticks printed rows e Hdf Hrows He.
      by rewrite (Hsink df ticks printed rows e Hdf Hrows He).
Qed.

(** C8, as the specification words it, fails: with a mapping document that
    loads, the error of listing the directory leaves [process_files] and
    [main] exits with status 1. *)
Lemma process_files_listing_error_propagates :
  load_column_mappings unlistable_world "mappings.yaml" = Ok (VDict demo_doc)
  ∧ (process_files unlistable_world "missing" "mappings.yaml" "p" "d" "t"
       (init_state 0)).1
    = Raise (Exc OSError "[Errno 2] No such file or directory: 'missing'")
  ∧ (main unlistable_world "missing" "mappings.yaml" "p" "d" "t" "stats.json"
       (init_state 0)).1 = Ok 1
  ∧ ¬ (∀ e,
         (process_files unlistable_world "missing" "mappings.yaml" "p" "d" "t"
            (init_state 0)).1 = Raise e →
         ∃ e', load_column_mappings unlistable_world "mappings.yaml" = Raise e').
Proof.
  split_and!; [reflexivity..|].
  intros H. by destruct (H _ eq_refl) as [e' He'].
Qed.

Lemma process_files_error_handling_witness :
  let run := process_files demo_world "in" "mappings.yaml" "p" "d" "t" (init_state 0) in
  ∃ entry,
    dict_get "e.xlsx" (stats run.2) = Some entry
    ∧ status entry = failed
    ∧ error_message entry = Some "File is not a zip file"
    ∧ processed_rows entry = 0
    ∧ failed_rows entry = 0.
Proof.
  cbv zeta.
  destruct (process_files_error_handling demo_world "in" "mappings.yaml" "p" "d" "t"
              "stats.json" (init_state 0)) as (_ & _ & _ & _ & _ & H).
  destruct (H demo_doc demo_files eq_refl eq_refl eq_refl) as [_ Hfiles].
  destruct (Hfiles "e.xlsx") as (entry & t & Hentry & _ & Hfailed & Htry).
  { cbn. tauto. }
  exists entry. split; [exact Hentry|].
  destruct (Htry _ eq_refl eq_refl eq_refl) as (_ & Hread & _).
  destruct (Hread _ eq_refl) as (Hs & Hm & Hp & _).
  split; [exact Hs|]. split; [exact Hm|]. split; [exact Hp|exact Hfailed].
Defined.

(** ** Source columns the file lacks *)

Lemma file_mapping_of_valid file_mapping fm filename :
  file_mapping_of file_mapping = Some fm →
  validate_mapping_config file_mapping filename = Ok true.
Proof.
  destruct file_mapping as [| | | | |l|d]; try done.
  unfold file_mapping_of. rewrite validate_dict.
  destruct (dict_get "columns" d) as [[]|]; try done.
  destruct (dict_get "attributes" d) as [[]|]; try done;
    destruct (str_items _); done.
Qed.

Lemma assignable_skip cols1 source_col target_col cols2 df :
  get_column source_col df = None →
  assignable (cols1 ++ (source_col, target_col) :: cols2) df
  = assignable (cols1 ++ cols2) df.
Proof.
  intros Hnone. unfold assignable. f_equal.
  rewrite !forallb_app. cbn [forallb fst]. unfold has_column at 2.
  by rewrite Hnone.
Qed.

Lemma columns_at_skip df idx cols1 source_col target_col cols2 r :
  get_column source_col df = None →
  fold_left (apply_column_at df idx) (cols1 ++ (source_col, target_col) :: cols2) r
  = fold_left (apply_column_at df idx) (cols1 ++ cols2) r.
Proof.
  intros Hnone. rewrite !fold_left_app. cbn [fold_left].
  unfold apply_column_at at 2. cbn [fst]. by rewrite Hnone.
Qed.

Lemma columns_at_untouched df idx cols field r :
  (∀ source_col, In (source_col, field) cols → get_column source_col df = None) →
  dict_get field (fold_left (apply_column_at df idx) cols r) = dict_get field r.
Proof.
  revert r. induction cols as [|[source_col target_col] cols IH]; intros r H;
    cbn [fold_left]; [done|].
  rewrite IH by (intros; apply H; by right).
  unfold apply_column_at. cbn [fst snd].
  destruct (get_column source_col df) eqn:Hsrc; [|done].
  apply dict_get_set_ne. intros ->.
  rewrite H in Hsrc by (by left). done.
Qed.

Lemma record_at_core_default fm filename created modified inserted df idx field :
  In field core_fields →
  (∀ source_col, In (source_col, field) (columns fm) →
     get_column source_col df = None) →
  dict_get field
    (map nullified (record_at fm filename created modified inserted df idx))
  = Some (CScalar SNone).
Proof.
  intros Hfield Hcols. rewrite dict_get_nullified. unfold record_at.
  rewrite dict_get_set_ne by (intros <-; cbn in Hfield; naive_solver).
  rewrite columns_at_untouched by done.
  cbn in Hfield. destruct_or?; subst; done.
Qed.

(** C7. A columns entry whose source column the file lacks costs a printed
    warning and nothing else: the entry is skipped (the rows are those of
    the mapping without it), the other entries and all rows are processed,
    and an identity field that no entry with a present source column
    targets stays None in every row.  The file ends 'success' absent other
    errors: the reader and the load succeed, and the assignments of the
    entries whose source column the file has raise nothing. *)
Theorem missing_source_column_warns (W : World)
    (directory mapping_file project_id dataset_id table_id : string)
    (d : list (string * pyval)) (files : list string) (t0 : nat) (f : string)
    (file_mapping : pyval) (fm : FileMapping) (df : DataFrame scalar)
    (source_col target_col : string) :
  let table_ref := project_id +:+ "." +:+ dataset_id +:+ "." +:+ table_id in
  is_ok (bigquery_Client W project_id) = true →
  load_column_mappings W mapping_file = Ok (VDict d) →
  os_listdir W directory = Ok files →
  In f files →
  endswith_any f [".xlsx"; ".csv"] = true →
  dict_get f d = Some file_mapping →
  file_mapping_of file_mapping = Some fm →
  read_result W f (path_join directory f) = Ok df →
  In (source_col, target_col) (columns fm) →
  get_column source_col df = None →
  assignable (columns fm) df = true →
  (∀ rows, is_ok (load_table_from_json W rows table_ref) = true) →
  ∃ st' entry rows created modified inserted,
    process_files W directory mapping_file project_id dataset_id table_id
      (init_state t0) = (Ok (stats st'), st')
    ∧ dict_get f (stats st') = Some entry
    ∧ status entry = success
    ∧ error_message entry = None
    ∧ total_rows entry = len df
    ∧ processed_rows entry = len df
    ∧ In (EvPrint (warning_line source_col f)) (events st')
    ∧ In (EvLoadTable rows table_ref) (events st')
    ∧ (normalize fm f created modified inserted df).2 = Ok rows
    ∧ length rows = len df
    ∧ (∀ cols1 cols2,
         columns fm = cols1 ++ (source_col, target_col) :: cols2 →
         (normalize (mkMapping (data_source fm) (cols1 ++ cols2) (attributes fm))
            f created modified inserted df).2 = Ok rows)
    ∧ (∀ field,
         In field core_fields →
         (∀ other, In (other, field) (columns fm) → get_column other df = None) →
         ∀ row, In row rows → dict_get field row = Some (CScalar SNone)).
Proof.
  intros table_ref Hclient Hload Hlist Hf Hext Hmap Hfm Hread Hcol Hnone Hassign
    Hsink.
  subst table_ref.
  destruct (process_files_run W directory mapping_file project_id dataset_id
              table_id d files (init_state t0) Hclient Hload Hlist)
    as (st' & Hrun & Hin & _ & _).
  destruct (Hin f Hf) as (t & Hentry & Hevs).
  pose proof (file_mapping_of_valid _ _ f Hfm) as Hvalid.
  unfold file_step in Hentry, Hevs. rewrite Hext, Hmap, Hvalid in Hentry, Hevs.
  cbn [negb] in Hentry, Hevs. unfold tried, norm_outcome in Hentry, Hevs.
  rewrite Hread, Hfm in Hentry, Hevs. cbv zeta in Hentry, Hevs.
  rewrite (normalize_rows _ _ _ _ _ _ Hassign),
    (normalize_printed _ _ _ _ _ _ Hassign) in Hentry, Hevs.
  set (created := strftime W (S t)) in *.
  set (modified := strftime W (S (S t))) in *.
  set (inserted := strftime W (S (S (S t)))) in *.
  set (rows := map (λ idx, map nullified
                      (record_at fm f created modified inserted df idx))
                 (seq 0 (len df))) in *.
  specialize (Hsink rows).
  destruct (load_table_from_json W rows _); [|done].
  cbn [fst snd] in Hentry, Hevs.
  exists st'. eexists. exists rows, created, modified, inserted.
  assert (length rows = len df) as Hlen
    by (unfold rows; by rewrite length_map, length_seq).
  split_and!; try done.
  - apply Hevs, in_or_app. left. right. apply in_map.
    unfold warnings_of. apply in_flat_map. exists (source_col, target_col).
    split; [done|]. cbn. rewrite Hnone. by left.
  - apply Hevs, in_or_app. right. by left.
  - by apply normalize_rows.
  - intros cols1 cols2 Hcols. rewrite normalize_rows.
    + f_equal. apply map_ext. intros idx. f_equal. unfold record_at. cbn [columns].
      by rewrite Hcols, columns_at_skip.
    + cbn [columns]. by rewrite <- (assignable_skip _ source_col target_col), <- Hcols.
  - intros field Hfield Hothers row [idx [<- _]]%in_map_iff.
    by apply record_at_core_default.
Qed.

Lemma missing_source_column_warns_witness :
  ∃ st' entry rows,
    process_files demo_world "in" "mappings.yaml" "p" "d" "t" (init_state 0)
    = (Ok (stats st'), st')
    ∧ dict_get "a.csv" (stats st') = Some entry
    ∧ status entry = success
    ∧ processed_rows entry = 2
    ∧ In (EvPrint "Warning: Column Email2 not found in a.csv") (events st')
    ∧ In (EvLoadTable rows "p.d.t") (events st')
    ∧ ∀ row, In row rows → dict_get "Email" row = Some (CScalar SNone).
Proof.
  destruct (missing_source_column_warns demo_world "in" "mappings.yaml" "p" "d" "t"
              demo_doc demo_files 0 "a.csv"
              (VDict [("data_source", VStr "crm");
                      ("columns", VDict [("id", VStr "Id"); ("name", VStr "FirstName");
                                         ("Email2", VStr "Email"); ("age", VStr "Extra")]);
                      ("attributes", VDict [("age", VStr "Age"); ("name", VStr "Nick");
                                            ("zip", VStr "Zip")])])
              sample_mapping sample_df "Email2" "Email"
              eq_refl eq_refl eq_refl)
    as (st' & entry & rows & created & modified & inserted & Hrun & Hentry & Hs & _
        & _ & Hp & Hwarn & Hload & _ & _ & _ & Hnull).
  - cbn. tauto.
  - reflexivity.
  - reflexivity.
  - reflexivity.
  - reflexivity.
  - cbn. tauto.
  - reflexivity.
  - reflexivity.
  - intros rows. reflexivity.
  - exists st', entry, rows.
    split; [exact Hrun|]. split; [exact Hentry|]. split; [exact Hs|].
    split; [exact Hp|]. split; [exact Hwarn|]. split; [exact Hload|].
    apply (Hnull "Email").
    + cbn. tauto.
    + intros other Hother. cbn in Hother.
      destruct Hother as [H|[H|[H|[H|[]]]]]; inversion H; reflexivity.
Defined.

(* ===================================================================== *)
(** * Further properties *)
(* ===================================================================== *)

(** ** Keys of dictionaries *)

Lemma dict_set_keys {V} k (v : V) (d : list (string * V)) k' :
  In k' (map fst (dict_set k v d)) ↔ k' = k ∨ In k' (map fst d).
Proof.
  induction d as [|[k0 w] d IH]; simpl; [naive_solver|].
  destruct (String.eqb_spec k0 k) as [->|]; simpl; naive_solver.
Qed.

Lemma dict_set_NoDup {V} k (v : V) (d : list (string * V)) :
  NoDup (map fst d) → NoDup (map fst (dict_set k v d)).
Proof.
  induction d as [|[k0 w] d IH]; simpl.
  - intros _. apply NoDup_singleton.
  - rewrite !NoDup_cons. intros [Hk0 Hd].
    destruct (String.eqb_spec k0 k) as [->|Hne]; simpl.
    + by rewrite NoDup_cons.
    + rewrite NoDup_cons. split; [|auto].
      rewrite list_elem_of_In, dict_set_keys, <- list_elem_of_In. naive_solver.
Qed.

Lemma dict_set_keys_fresh {V} k (v : V) (d : list (string * V)) :
  ¬ In k (map fst d) → map fst (dict_set k v d) = map fst d ++ [k].
Proof.
  induction d as [|[k0 w] d IH]; simpl; [done|].
  intros Hk. destruct (String.eqb_spec k0 k) as [->|Hne]; [tauto|].
  simpl. rewrite IH; [done|tauto].
Qed.

Lemma nullified_keys (r : record) : map fst (map nullified r) = map fst r.
Proof.
  rewrite map_map. apply map_ext. intros item. apply nullified_key.
Qed.

Lemma has_column_false source_col df :
  has_column source_col df = false ↔ get_column source_col df = None.
Proof. unfold has_column. by destruct (get_column source_col df). Qed.

Lemma columns_at_keys df idx cols r key :
  In key (map fst (fold_left (apply_column_at df idx) cols r))
  ↔ In key (map fst r)
    ∨ ∃ source_col, In (source_col, key) cols ∧ has_column source_col df = true.
Proof.
  revert r. induction cols as [|[source_col target_col] cols IH]; intros r;
    cbn [fold_left].
  - naive_solver.
  - rewrite IH. unfold apply_column_at, has_column. cbn [fst snd].
    destruct (get_column source_col df) as [x|] eqn:Hsrc.
    + rewrite dict_set_keys. split.
      * intros [[->|?]|(sc & ? & ?)]; [right|by left|right].
        -- exists source_col. split; [by left|by rewrite Hsrc].
        -- exists sc. split; [by right|done].
      * intros [?|(sc & [[= -> ->]|?] & Hsc)]; [by left; right|by left; left|].
        right. by exists sc.
    + split.
      * intros [?|(sc & ? & ?)]; [by left|]. right. exists sc. split; [by right|done].
      * intros [?|(sc & [[= -> ->]|?] & Hsc)]; [by left| |].
        -- by rewrite Hsrc in Hsc.
        -- right. by exists sc.
Qed.

Lemma columns_at_NoDup df idx cols r :
  NoDup (map fst r) → NoDup (map fst (fold_left (apply_column_at df idx) cols r)).
Proof.
  revert r. induction cols as [|entry cols IH]; intros r Hr; cbn [fold_left]; [done|].
  apply IH. unfold apply_column_at. destruct (get_column entry.1 df); [|done].
  by apply dict_set_NoDup.
Qed.

Lemma columns_at_last df idx cols1 source_col target_col cols2 r series :
  get_column source_col df = Some series →
  (∀ other, In (other, target_col) cols2 → get_column other df = None) →
  dict_get target_col
    (fold_left (apply_column_at df idx) (cols1 ++ (source_col, target_col) :: cols2) r)
  = Some (stored_cell df series idx).
Proof.
  intros Hsrc Hlater. rewrite fold_left_app. cbn [fold_left].
  rewrite columns_at_untouched by done.
  unfold apply_column_at. cbn [fst snd]. rewrite Hsrc. apply dict_get_set_eq.
Qed.

Lemma default_row_values fm filename created modified inserted field v :
  dict_get field (default_row fm filename created modified inserted) = Some v →
  (nullified (field, v)).2 = v.
Proof.
  unfold nullified. cbn [fst snd].
  destruct (existsb (String.eqb field) kept_fields); [done|].
  unfold default_row. cbn [dict_get].
  repeat (case_match; [by intros [= <-]|]). done.
Qed.

(** ** Labels and positions *)

Lemma range_index_lookup n idx :
  idx < n → range_index n !! idx = Some (LInt (Z.of_nat idx)).
Proof.
  intros Hidx. unfold range_index. rewrite lookup_map_seq. by case_decide.
Qed.

Lemma range_index_lookup_inv n j idx :
  range_index n !! j = Some (LInt (Z.of_nat idx)) → j = idx.
Proof.
  unfold range_index. rewrite lookup_map_seq. case_decide; [|done].
  intros [= Heq]. lia.
Qed.

Lemma get_loc_lookup l labels j :
  NoDup labels → labels !! j = Some l → get_loc l labels = Some j.
Proof.
  intros Hnd. revert j. induction Hnd as [|l0 labels Hl0 Hnd IH]; intros j; [done|].
  cbn [get_loc]. destruct j as [|j]; cbn.
  - intros [= ->]. by rewrite decide_True.
  - intros Hj. rewrite decide_False.
    + by rewrite (IH j Hj).
    + intros ->. apply Hl0. by eapply list_elem_of_lookup_2.
Qed.

Lemma get_loc_None l labels :
  (∀ j, labels !! j ≠ Some l) → get_loc l labels = None.
Proof.
  induction labels as [|l0 labels IH]; intros Hno; [done|].
  cbn [get_loc]. rewrite decide_False by (intros ->; by apply (Hno 0)).
  rewrite IH; [done|]. intros j. apply (Hno (S j)).
Qed.

Lemma alignable_cases df :
  alignable df = true →
  default_index df
  ∨ (bool_decide (index df = range_index (len df)) = false ∧ NoDup (index df)).
Proof.
  unfold alignable, default_index, is_unique.
  destruct (bool_decide (index df = range_index (len df))) eqn:Hsame.
  - left. by apply bool_decide_eq_true in Hsame.
  - cbn. intros [_ Hnd%bool_decide_eq_true]%andb_true_iff. by right.
Qed.

(** The value line 119 stores at row [idx] is the one of the input row
    labelled [idx], and NaN when no input row has that label. *)
Lemma stored_cell_label df series idx j :
  alignable df = true →
  idx < len df →
  index df !! j = Some (LInt (Z.of_nat idx)) →
  same_value (series j) (stored_cell df series idx).
Proof.
  intros [Hdefault|[Hsame Hnd]]%alignable_cases Hidx Hj; unfold stored_cell.
  - rewrite bool_decide_eq_true_2 by done.
    rewrite Hdefault in Hj. apply range_index_lookup_inv in Hj as ->. by left.
  - rewrite Hsame. unfold reindex.
    rewrite range_index_lookup by done. cbn [mbind option_bind].
    rewrite (get_loc_lookup _ _ j) by done.
    destruct (series j) as [| | |z| |]; try by left.
    destruct (_ && _); [right; by exists z|by left].
Qed.

Lemma stored_cell_missing df series idx :
  alignable df = true →
  idx < len df →
  (∀ j, index df !! j ≠ Some (LInt (Z.of_nat idx))) →
  stored_cell df series idx = CScalar SNaN.
Proof.
  intros [Hdefault|[Hsame Hnd]]%alignable_cases Hidx Hno; unfold stored_cell.
  - destruct (Hno idx). rewrite Hdefault. by apply range_index_lookup.
  - rewrite Hsame. unfold reindex.
    rewrite range_index_lookup by done. cbn [mbind option_bind].
    by rewrite get_loc_None.
Qed.

Lemma alignable_assignable cols df : alignable df = true → assignable cols df = true.
Proof. intros H. unfold assignable. by rewrite H. Qed.

(** ** The fields of a record *)

(** X1. The records of a file all carry the column labels of [new_df] as
    their keys, in the same order and without repetition: every top-level
    field of the schema is among them, and a key outside the schema is the
    target of a columns entry whose source column the file has. *)
Theorem normalize_record_keys (fm : FileMapping) (filename : string)
    (created modified inserted : string) (df : DataFrame scalar) :
  assignable (columns fm) df = true →
  ∃ new_df rows,
    (build_new_df fm filename created modified inserted df).2 = Ok new_df
    ∧ (normalize fm filename created modified inserted df).2 = Ok rows
    ∧ ∀ row, In row rows →
        map fst row = map fst (data new_df)
        ∧ NoDup (map fst row)
        ∧ (∀ field, In field schema_names → In field (map fst row))
        ∧ (∀ key, In key (map fst row) →
             In key schema_names
             ∨ ∃ source_col, In (source_col, key) (columns fm)
                             ∧ has_column source_col df = true).
Proof.
  intros Hassign.
  destruct (build_new_df_spec fm filename created modified inserted df)
    as (Hok & _ & Hbuilt). rewrite Hassign in Hok.
  destruct (build_new_df fm filename created modified inserted df).2
    as [new_df|e] eqn:Hbuild; [|done].
  destruct (Hbuilt new_df eq_refl) as [Hlen Hrows].
  exists new_df. eexists. split; [done|]. split; [by apply normalize_rows|].
  intros row [idx [<- [_ Hidx]%in_seq]]%in_map_iff.
  rewrite nullified_keys. split.
  { rewrite <- Hrows by done. unfold iloc_to_dict. rewrite map_map.
    apply map_ext. by intros [c s]. }
  unfold record_at.
  assert (NoDup (map fst (default_row fm filename created modified inserted))) as Hnd.
  { apply (bool_decide_unpack _). by vm_compute. }
  split; [by apply dict_set_NoDup, columns_at_NoDup|]. split.
  - intros field Hfield. rewrite dict_set_keys, columns_at_keys.
    cbn in Hfield. destruct_or?; subst; try done; cbn; tauto.
  - intros key. rewrite dict_set_keys, columns_at_keys.
    intros [->|[Hdef|(sc & Hsc & Hsome)]].
    + left. cbn. tauto.
    + left. cbn in Hdef. cbn. tauto.
    + right. by exists sc.
Qed.

Lemma normalize_record_keys_witness :
  ∃ rows,
    (normalize sample_mapping "a.csv" "t1" "t2" "t3" sample_df).2 = Ok rows
    ∧ ∀ row, In row rows →
        map fst row
        = ["DataSource"; "SourceCreatedDate"; "SourceModifiedDate"; "SourceFile";
           "BQInsertedDate"; "Id"; "FirstName"; "LastName"; "Email"; "Mobile";
           "PostCode"; "Extra"; "Attributes"].
Proof.
  destruct (normalize_record_keys sample_mapping "a.csv" "t1" "t2" "t3" sample_df
              eq_refl)
    as (new_df & rows & Hbuild & Hrows & Hkeys).
  exists rows. split; [exact Hrows|].
  intros row Hrow. destruct (Hkeys row Hrow) as [-> _].
  injection Hbuild as <-. reflexivity.
Defined.

(** ** The values of a record *)

(** X2. On a dataset with the default index, a columns entry whose source
    column the file has copies that column into its target field, row by
    row, over any default; when several entries name one target, the last
    one whose source column the file has gives the value.  The value is
    null-normalised, except under SourceFile and BQInsertedDate, where a
    blank cell stays NaN. *)
Theorem normalize_copies_column (fm : FileMapping) (filename : string)
    (created modified inserted : string) (df : DataFrame scalar)
    (cols1 cols2 : list (string * string)) (source_col target_col : string)
    (series : Series scalar) :
  default_index df →
  columns fm = cols1 ++ (source_col, target_col) :: cols2 →
  get_column source_col df = Some series →
  (∀ other, In (other, target_col) cols2 → has_column other df = false) →
  target_col ≠ "Attributes" →
  ∃ rows,
    (normalize fm filename created modified inserted df).2 = Ok rows
    ∧ length rows = len df
    ∧ ∀ idx row, rows !! idx = Some row →
        dict_get target_col row
        = Some (CScalar
                  (if existsb (String.eqb target_col) ["BQInsertedDate"; "SourceFile"]
                   then series idx
                   else if isna (series idx) then SNone else series idx)).
Proof.
  intros Hdefault Hcols Hsrc Hlater Hattr.
  eexists. split; [by apply normalize_rows, default_index_assignable|].
  split; [by rewrite length_map, length_seq|].
  intros idx row. rewrite lookup_map_seq. case_decide as Hidx; [|done].
  intros [= <-]. rewrite dict_get_nullified. unfold record_at.
  rewrite dict_get_set_ne by done. rewrite Hcols.
  rewrite (columns_at_last _ _ _ _ _ _ _ series); [|done|].
  - cbn [fmap option_fmap option_map]. f_equal.
    unfold stored_cell. rewrite bool_decide_eq_true_2 by done.
    unfold nullified, kept_fields. cbn [fst snd existsb is_missing].
    rewrite !orb_false_r.
    destruct (String.eqb_spec target_col "Attributes") as [->|_]; [done|].
    rewrite orb_false_r.
    destruct (String.eqb target_col "BQInsertedDate" || String.eqb target_col "SourceFile");
      [done|].
    by destruct (isna (series idx)).
  - intros other Hother. by apply has_column_false, Hlater.
Qed.

Lemma normalize_copies_column_witness :
  ∃ rows,
    (normalize (mkMapping None [("id", "Id"); ("name", "SourceFile"); ("age", "Id")] None)
       "a.csv" "t1" "t2" "t3" sample_df).2 = Ok rows
    ∧ (∃ row, rows !! 1 = Some row
         ∧ dict_get "SourceFile" row = Some (CScalar SNaN)
         ∧ dict_get "Id" row = Some (CScalar SNone))
    ∧ (∃ row, rows !! 0 = Some row
         ∧ dict_get "SourceFile" row = Some (CScalar (SStr "Ann"))
         ∧ dict_get "Id" row = Some (CScalar (SFloat "30.0"))).
Proof.
  set (fm := mkMapping None [("id", "Id"); ("name", "SourceFile"); ("age", "Id")] None).
  destruct (normalize_copies_column fm "a.csv" "t1" "t2" "t3" sample_df
              [("id", "Id")] [("age", "Id")] "name" "SourceFile"
              (λ i, nth i [SStr "Ann"; SNaN] SNaN) eq_refl eq_refl eq_refl)
    as (rows & Hrows & Hlen & Hfile).
  { intros other [H|[]]. inversion H. }
  { discriminate. }
  destruct (normalize_copies_column fm "a.csv" "t1" "t2" "t3" sample_df
              [("id", "Id"); ("name", "SourceFile")] [] "age" "Id"
              (λ i, nth i [SFloat "30.0"; SNaN] SNaN) eq_refl eq_refl eq_refl)
    as (rows' & Hrows' & _ & Hid).
  { intros other []. }
  { discriminate. }
  rewrite Hrows in Hrows'. injection Hrows' as <-.
  exists rows. split; [exact Hrows|].
  destruct rows as [|row0 [|row1 rows]]; [discriminate Hlen..|].
  split.
  - exists row1. split; [reflexivity|].
    split; [exact (Hfile 1 row1 eq_refl)|exact (Hid 1 row1 eq_refl)].
  - exists row0. split; [reflexivity|].
    split; [exact (Hfile 0 row0 eq_refl)|exact (Hid 0 row0 eq_refl)].
Defined.

(** X3. Line 119 assigns by label: on a dataset whose labels are those of
    [range(len(df))] or are distinct, the target field of the record at
    position [idx] holds the value that the source column has in the input
    row labelled [idx], null-normalised and as a float when the column of
    integers had to be filled, and None when no input row has the label
    [idx].  (The entry is the last one for its target whose source column
    the file has, and the target is not a field the null normalisation
    leaves alone.) *)
Theorem normalize_aligns_column (fm : FileMapping) (filename : string)
    (created modified inserted : string) (df : DataFrame scalar)
    (cols1 cols2 : list (string * string)) (source_col target_col : string)
    (series : Series scalar) :
  alignable df = true →
  columns fm = cols1 ++ (source_col, target_col) :: cols2 →
  get_column source_col df = Some series →
  (∀ other, In (other, target_col) cols2 → has_column other df = false) →
  ¬ In target_col kept_fields →
  ∃ rows,
    (normalize fm filename created modified inserted df).2 = Ok rows
    ∧ length rows = len df
    ∧ ∀ idx row, rows !! idx = Some row →
        (∀ j, index df !! j = Some (LInt (Z.of_nat idx)) →
           ∃ v, dict_get target_col row = Some v
                ∧ if isna (series j) then v = CScalar SNone
                  else same_value (series j) v)
        ∧ ((∀ j, index df !! j ≠ Some (LInt (Z.of_nat idx))) →
           dict_get target_col row = Some (CScalar SNone)).
Proof.
  intros Halign Hcols Hsrc Hlater Hkept.
  eexists. split; [by apply normalize_rows, alignable_assignable|].
  split; [by rewrite length_map, length_seq|].
  intros idx row. rewrite lookup_map_seq. case_decide as Hidx; [|done].
  intros [= <-].
  assert (existsb (String.eqb target_col) kept_fields = false) as E.
  { apply not_true_is_false. by rewrite existsb_eqb_In. }
  assert (target_col ≠ "Attributes") as Hattr.
  { intros ->. apply Hkept. cbn. tauto. }
  assert (dict_get target_col
            (map nullified (record_at fm filename created modified inserted df idx))
          = Some (if is_missing (stored_cell df series idx) then CScalar SNone
                  else stored_cell df series idx)) as Hget.
  { rewrite dict_get_nullified. unfold record_at.
    rewrite dict_get_set_ne by done. rewrite Hcols.
    rewrite (columns_at_last _ _ _ _ _ _ _ series); [|done|].
    - cbn [fmap option_fmap option_map]. unfold nullified. cbn [fst snd].
      rewrite E. by destruct (is_missing _).
    - intros other Hother. by apply has_column_false, Hlater. }
  rewrite Hget. split.
  - intros j Hj. eexists. split; [done|].
    destruct (stored_cell_label df series idx j Halign Hidx Hj)
      as [->|(z & Hz & ->)]; cbn [is_missing].
    + destruct (isna (series j)); [done|by left].
    + rewrite Hz. cbn. right. by exists z.
  - intros Hno. by rewrite (stored_cell_missing df series idx Halign Hidx Hno).
Qed.

Lemma normalize_aligns_column_witness :
  ∃ rows,
    (normalize people_mapping "a.csv" "t1" "t2" "t3" numbered_df).2 = Ok rows
    ∧ (∃ row, rows !! 0 = Some row
         ∧ dict_get "FirstName" row = Some (CScalar SNone))
    ∧ (∃ row v, rows !! 1 = Some row
         ∧ dict_get "Mobile" row = Some v
         ∧ same_value (SInt 61) v).
Proof.
  destruct (normalize_aligns_column people_mapping "a.csv" "t1" "t2" "t3" numbered_df
              [] [("phone", "Mobile")] "name" "FirstName"
              (λ i, nth i [SStr "Ann"; SStr "Bob"] SNaN) eq_refl eq_refl eq_refl)
    as (rows & Hrows & Hlen & Hname).
  { intros other [H|[]]. inversion H. }
  { cbn. intuition discriminate. }
  destruct (normalize_aligns_column people_mapping "a.csv" "t1" "t2" "t3" numbered_df
              [("name", "FirstName")] [] "phone" "Mobile"
              (λ i, nth i [SInt 61; SInt 62] SNaN) eq_refl eq_refl eq_refl)
    as (rows' & Hrows' & _ & Hphone).
  { intros other []. }
  { cbn. intuition discriminate. }
  rewrite Hrows in Hrows'. injection Hrows' as <-.
  exists rows. split; [exact Hrows|].
  destruct rows as [|row0 [|row1 rows]]; [discriminate Hlen..|].
  split.
  - exists row0. split; [reflexivity|].
    apply (Hname 0 row0 eq_refl). by intros [|[|j]].
  - destruct (Hphone 1 row1 eq_refl) as [Hlabel _].
    destruct (Hlabel 0 eq_refl) as (v & Hv & Hsame).
    exists row1, v. split; [reflexivity|]. split; [exact Hv|exact Hsame].
Defined.

(** X4. A field that no columns entry with a source column of the file
    targets holds its default in every record: DataSource is the
    'data_source' of the mapping, or 'unknown' when the mapping has none;
    SourceFile is the filename; the three dates are the readings of the
    clock; the identity fields are None; and a field without default is
    absent. *)
Theorem normalize_keeps_defaults (fm : FileMapping) (filename : string)
    (created modified inserted : string) (df : DataFrame scalar) (field : string) :
  assignable (columns fm) df = true →
  (∀ source_col, In (source_col, field) (columns fm) →
     has_column source_col df = false) →
  field ≠ "Attributes" →
  ∃ rows,
    (normalize fm filename created modified inserted df).2 = Ok rows
    ∧ length rows = len df
    ∧ ∀ row, In row rows →
        dict_get field row
        = dict_get field
            [("DataSource",
              CScalar (SStr match data_source fm with
                            | Some name => name
                            | None => "unknown"
                            end));
             ("SourceCreatedDate", CScalar (SStr created));
             ("SourceModifiedDate", CScalar (SStr modified));
             ("SourceFile", CScalar (SStr filename));
             ("BQInsertedDate", CScalar (SStr inserted));
             ("Id", CScalar SNone); ("FirstName", CScalar SNone);
             ("LastName", CScalar SNone); ("Email", CScalar SNone);
             ("Mobile", CScalar SNone); ("PostCode", CScalar SNone)].
Proof.
  intros Hassign Huntargeted Hattr.
  eexists. split; [by apply normalize_rows|].
  split; [by rewrite length_map, length_seq|].
  intros row [idx [<- _]]%in_map_iff.
  rewrite dict_get_nullified. unfold record_at.
  rewrite dict_get_set_ne by done.
  rewrite columns_at_untouched.
  - match goal with
    | |- _ = dict_get field ?l =>
        change l with (default_row fm filename created modified inserted)
    end.
    destruct (dict_get field (default_row _ _ _ _ _)) as [v|] eqn:Hv; [|done].
    cbn. f_equal. by eapply default_row_values.
  - intros sc Hsc. by apply has_column_false, Huntargeted.
Qed.

Lemma normalize_keeps_defaults_witness :
  ∃ rows,
    (normalize (mkMapping None [("id", "Id"); ("Source", "DataSource")] None)
       "a.csv" "t1" "t2" "t3" repeated_df).2 = Ok rows
    ∧ length rows = 2
    ∧ ∀ row, In row rows →
        dict_get "DataSource" row = Some (CScalar (SStr "unknown")).
Proof.
  apply (normalize_keeps_defaults
           (mkMapping None [("id", "Id"); ("Source", "DataSource")] None)
           "a.csv" "t1" "t2" "t3" repeated_df "DataSource").
  - reflexivity.
  - intros source_col [H|[H|[]]]; inversion H. reflexivity.
  - discriminate.
Defined.

(** ** What the loop over the columns prints and raises *)

Lemma warnings_of_filter filename df cols :
  warnings_of filename df cols
  = map (λ entry : string * string, warning_line entry.1 filename)
      (filter (λ entry : string * string, has_column entry.1 df = false) cols).
Proof.
  unfold warnings_of, has_column.
  induction cols as [|[sc tc] cols IH]; [done|]. cbn [flat_map].
  rewrite filter_cons. cbn [fst].
  destruct (get_column sc df); rewrite IH; by case_decide.
Qed.

(** X5. When no assignment raises, the loop over the columns prints one
    warning for each entry whose source column the file lacks, in the
    order of the mapping, and nothing else: no line at all when the file
    has every source column. *)
Theorem normalize_warnings (fm : FileMapping) (filename : string)
    (created modified inserted : string) (df : DataFrame scalar) :
  assignable (columns fm) df = true →
  let printed := (normalize fm filename created modified inserted df).1 in
  printed
  = map (λ entry : string * string, warning_line entry.1 filename)
      (filter (λ entry : string * string, has_column entry.1 df = false) (columns fm))
  ∧ (∀ line, In line printed ↔
       ∃ source_col target_col,
         In (source_col, target_col) (columns fm)
         ∧ has_column source_col df = false
         ∧ line = warning_line source_col filename)
  ∧ ((∀ source_col target_col,
        In (source_col, target_col) (columns fm) → has_column source_col df = true)
     → printed = []).
Proof.
  intros Hassign. cbv zeta. rewrite normalize_printed by done.
  rewrite warnings_of_filter. split; [done|]. split.
  - intros line. rewrite in_map_iff. split.
    + intros ([sc tc] & <- & Hin).
      rewrite <- list_elem_of_In, list_elem_of_filter, list_elem_of_In in Hin.
      destruct Hin as [Hf Hin]. by exists sc, tc.
    + intros (sc & tc & Hin & Hf & ->). exists (sc, tc). split; [done|].
      rewrite <- list_elem_of_In, list_elem_of_filter, list_elem_of_In. done.
  - intros Hall. clear Hassign.
    induction (columns fm) as [|[sc tc] cols IH]; [done|].
    rewrite filter_cons. cbn [fst].
    pose proof (Hall sc tc (or_introl eq_refl)) as Hsc.
    case_decide as Hd; [congruence|]. apply IH. intros s t Hst.
    apply (Hall s t). by right.
Qed.

Lemma normalize_warnings_witness :
  (normalize sample_mapping "a.csv" "t1" "t2" "t3" sample_df).1
  = ["Warning: Column Email2 not found in a.csv"]
  ∧ (normalize (mkMapping None [("id", "Id")] None) "a.csv" "t1" "t2" "t3"
       sample_df).1 = [].
Proof.
  split.
  - destruct (normalize_warnings sample_mapping "a.csv" "t1" "t2" "t3" sample_df
                eq_refl) as [-> _]. reflexivity.
  - apply (normalize_warnings (mkMapping None [("id", "Id")] None) "a.csv"
             "t1" "t2" "t3" sample_df eq_refl).
    intros source_col target_col [H|[]]. inversion H. reflexivity.
Defined.

Lemma reindex_for_setitem_error df series :
  alignable df = false →
  reindex_for_setitem (index df) series (range_index (len df))
  = Raise (alignment_error df).
Proof.
  unfold reindex_for_setitem, alignable, alignment_error.
  destruct (bool_decide (index df = range_index (len df))) eqn:Hsame; [done|].
  cbn [orb].
  destruct (Nat.eqb_spec (length (range_index (len df))) 0) as [Hlen|_].
  { apply empty_index_default in Hlen. apply bool_decide_eq_false in Hsame. done. }
  by destruct (is_multi (index df)), (is_unique (index df)).
Qed.

Lemma apply_columns_raise filename df cols new_df printed :
  index new_df = range_index (len df) →
  assignable cols df = false →
  apply_columns filename df cols new_df printed
  = (printed ++ warnings_of filename df (leading_absent df cols),
     Raise (alignment_error df)).
Proof.
  intros Hindex. revert printed.
  induction cols as [|[source_col target_col] cols IH]; intros printed.
  - unfold assignable. cbn. by rewrite orb_true_r.
  - rewrite assignable_cons. cbn [apply_columns leading_absent fst].
    unfold apply_column, has_column.
    destruct (get_column source_col df) as [series|] eqn:Hcol.
    + intros Halign. unfold set_series.
      rewrite Hindex, reindex_for_setitem_error by done. cbn.
      by rewrite app_nil_r.
    + intros Hassign. rewrite IH by done.
      unfold warnings_of. cbn [flat_map fst]. rewrite Hcol.
      by rewrite <- app_assoc.
Qed.

Lemma forallb_absent_false df cols :
  forallb (λ entry : string * string, negb (has_column entry.1 df)) cols = false
  ↔ ∃ source_col target_col,
      In (source_col, target_col) cols ∧ has_column source_col df = true.
Proof.
  induction cols as [|[sc tc] cols IH]; cbn.
  - split; [done|]. by intros (? & ? & [] & _).
  - destruct (has_column sc df) eqn:Hsc; cbn.
    + split; [|done]. intros _. exists sc, tc. tauto.
    + rewrite IH. split.
      * intros (s & t & Hin & Hs). exists s, t. tauto.
      * intros (s & t & [[= -> ->]|Hin] & Hs); [congruence|]. by exists s, t.
Qed.

Lemma normalize_not_assignable fm filename created modified inserted df :
  assignable (columns fm) df = false →
  normalize fm filename created modified inserted df
  = (warnings_of filename df (leading_absent df (columns fm)),
     Raise (alignment_error df)).
Proof.
  intros Hassign. unfold normalize, build_new_df.
  rewrite apply_columns_raise by done. done.
Qed.

(** X6. The normalisation raises exactly when an entry of the columns
    mapping names a column of the file and the labels of the file are
    neither those of [range(len(df))] nor distinct labels of a one-level
    index.  The exception is the one of the first such assignment, the
    warnings of the entries before it have been printed, and no record is
    made. *)
Theorem normalize_raises (fm : FileMapping) (filename : string)
    (created modified inserted : string) (df : DataFrame scalar) :
  is_ok (normalize fm filename created modified inserted df).2
  = assignable (columns fm) df
  ∧ (assignable (columns fm) df = false ↔
       alignable df = false
       ∧ ∃ source_col target_col,
           In (source_col, target_col) (columns fm)
           ∧ has_column source_col df = true)
  ∧ (assignable (columns fm) df = false →
     normalize fm filename created modified inserted df
     = (warnings_of filename df (leading_absent df (columns fm)),
        Raise (alignment_error df))).
Proof.
  split; [apply normalize_ok|]. split.
  - unfold assignable. rewrite orb_false_iff. apply and_iff_compat_l.
    apply forallb_absent_false.
  - apply normalize_not_assignable.
Qed.

Lemma normalize_raises_witness :
  normalize sample_mapping "a.csv" "t1" "t2" "t3" repeated_df
  = (["Warning: Column id not found in a.csv"],
     Raise (Exc ValueError "cannot reindex on an axis with duplicate labels")).
Proof.
  destruct (normalize_raises sample_mapping "a.csv" "t1" "t2" "t3" repeated_df)
    as (_ & _ & Hraise).
  exact (Hraise eq_refl).
Defined.
(** ** The statistics of a run *)

Lemma for_each_keys W directory table_ref d files : ∀ st st',
  for_each (process_file W directory table_ref (VDict d)) files st = (Ok (), st') →
  NoDup files →
  (∀ f, In f files → ¬ In f (map fst (stats st))) →
  map fst (stats st') = map fst (stats st) ++ files.
Proof.
  induction files as [|g files IH]; intros st st' Hrun Hnd Hfresh.
  - cbn in Hrun. injection Hrun as <-. by rewrite app_nil_r.
  - cbn [for_each] in Hrun. unfold mbind, Run_bind in Hrun.
    rewrite process_file_step in Hrun.
    destruct (file_step W directory table_ref d g (clock st)) as [[entry c] evs].
    apply NoDup_cons in Hnd as [Hg Hnd].
    rewrite (IH _ _ Hrun Hnd); cbn [stats].
    + rewrite dict_set_keys_fresh by (apply Hfresh; by left).
      by rewrite <- app_assoc.
    + intros f Hf. rewrite dict_set_keys. intros [->|Hold].
      * by apply Hg, list_elem_of_In.
      * apply (Hfresh f); [by right|done].
Qed.

(** X7. When [process_files] returns, the statistics hold an entry for the
    names of the listing and for no other name, in the order of the
    listing when its names are distinct; every entry has its start time,
    and none is left 'not_processed'. *)
Theorem process_files_one_entry_per_file (W : World)
    (directory mapping_file project_id dataset_id table_id : string)
    (d : list (string * pyval)) (files : list string) (st : State) :
  is_ok (bigquery_Client W project_id) = true →
  load_column_mappings W mapping_file = Ok (VDict d) →
  os_listdir W directory = Ok files →
  ∃ st',
    process_files W directory mapping_file project_id dataset_id table_id st
    = (Ok (stats st'), st')
    ∧ (∀ f, is_Some (dict_get f (stats st')) ↔ In f files)
    ∧ (NoDup files → map fst (stats st') = files)
    ∧ ∀ f entry, dict_get f (stats st') = Some entry →
        is_Some (start_time entry) ∧ status entry ≠ not_processed.
Proof.
  intros Hclient Hload Hlist.
  unfold process_files. run_file.
  destruct (bigquery_Client W project_id) as [u|]; [|done].
  rewrite Hload, Hlist. run_file.
  destruct (for_each_files W directory
              (project_id +:+ "." +:+ dataset_id +:+ "." +:+ table_id) d files
              (mkState [] (clock st) (events st)))
    as (st' & Hrun & Hin & Hout & _ & _).
  rewrite Hrun. cbn [stats_read]. exists st'. split; [done|].
  assert (∀ f, is_Some (dict_get f (stats st')) ↔ In f files) as Hkeys.
  { intros f. split.
    - intros Hsome. destruct (in_dec String.eq_dec f files) as [|Hno]; [done|].
      rewrite (Hout f Hno) in Hsome. by destruct Hsome.
    - intros Hf. destruct (Hin f Hf) as (t & -> & _). done. }
  split; [done|]. split.
  - intros Hnd. rewrite (for_each_keys _ _ _ _ _ _ _ Hrun Hnd); [done|].
    intros f _ [].
  - intros f entry Hentry.
    assert (In f files) as Hf by (apply Hkeys; by rewrite Hentry).
    destruct (Hin f Hf) as (t & Hstep & _). rewrite Hstep in Hentry.
    injection Hentry as <-.
    pose proof (file_step_times W directory
      (project_id +:+ "." +:+ dataset_id +:+ "." +:+ table_id) d f t)
      as (Hstart & _ & Hstatus & _).
    split; [by rewrite Hstart|done].
Qed.

Lemma process_files_one_entry_per_file_witness :
  ∃ st',
    process_files demo_world "in" "mappings.yaml" "p" "d" "t" (init_state 0)
    = (Ok (stats st'), st')
    ∧ map fst (stats st') = ["a.csv"; "b.txt"; "c.csv"; "d.csv"; "DATA.CSV"; "e.xlsx"].
Proof.
  destruct (process_files_one_entry_per_file demo_world "in" "mappings.yaml"
              "p" "d" "t" demo_doc demo_files (init_state 0) eq_refl eq_refl eq_refl)
    as (st' & Hrun & _ & Hkeys & _).
  exists st'. split; [exact Hrun|]. apply Hkeys.
  apply (bool_decide_unpack _). vm_compute. exact I.
Defined.



Lemma norm_outcome_typed W file_mapping filename df t ticks printed rows :
  is_Some (file_mapping_of file_mapping) →
  norm_outcome W file_mapping filename df t = (ticks, printed, Ok rows) →
  length rows = len df.
Proof.
  intros [fm Hfm]. unfold norm_outcome. rewrite Hfm. cbv zeta.
  intros [= _ _ [_ ->]%normalize_rows_inv].
  by rewrite length_map, length_seq.
Qed.

(** X9. When every mapping of the document that validates has string
    targets, attribute names and data source, each entry of the statistics
    keeps [processed_rows] at 0 unless the file ends 'success', and then it
    equals [total_rows]: a file is loaded whole or not at all. *)
Theorem process_files_all_or_nothing (W : World)
    (directory mapping_file project_id dataset_id table_id : string)
    (d : list (string * pyval)) (files : list string) (st : State) :
  is_ok (bigquery_Client W project_id) = true →
  load_column_mappings W mapping_file = Ok (VDict d) →
  os_listdir W directory = Ok files →
  typed_document d →
  ∃ st',
    process_files W directory mapping_file project_id dataset_id table_id st
    = (Ok (stats st'), st')
    ∧ ∀ f entry, dict_get f (stats st') = Some entry →
        (status entry = success ∧ processed_rows entry = total_rows entry)
        ∨ (status entry ≠ success ∧ processed_rows entry = 0).
Proof.
  intros Hclient Hload Hlist Htyped.
  destruct (process_files_run W directory mapping_file project_id dataset_id
              table_id d files st Hclient Hload Hlist)
    as (st' & Hrun & Hin & Hout & _).
  exists st'. split; [done|]. intros f entry Hentry.
  destruct (in_dec String.eq_dec f files) as [Hf|Hf].
  2:{ by rewrite (Hout f Hf) in Hentry. }
  destruct (Hin f Hf) as (t & Hstep & _). rewrite Hstep in Hentry.
  injection Hentry as <-. unfold file_step.
  destruct (endswith_any f [".xlsx"; ".csv"]); cbn [negb]; [|by right].
  destruct (dict_get f d) as [file_mapping|] eqn:Hmap; [|by right].
  destruct (validate_mapping_config file_mapping f) as [[|]|] eqn:Hvalid;
    [|by right..].
  unfold tried.
  destruct (read_result W f _) as [df|e]; [|by right].
  destruct (norm_outcome W file_mapping f df (S t))
    as [[ticks printed] [rows|e]] eqn:Hnorm; [|by right].
  pose proof (norm_outcome_typed _ _ _ _ _ _ _ _ (Htyped _ _ Hmap Hvalid) Hnorm)
    as Hlen.
  destruct (load_table_from_json W rows _); cbn; [by left|by right].
Qed.

Lemma process_files_all_or_nothing_witness :
  ∃ st',
    process_files demo_world "in" "mappings.yaml" "p" "d" "t" (init_state 0)
    = (Ok (stats st'), st')
    ∧ ∀ f entry, dict_get f (stats st') = Some entry →
        (status entry = success ∧ processed_rows entry = total_rows entry)
        ∨ (status entry ≠ success ∧ processed_rows entry = 0).
Proof.
  apply (process_files_all_or_nothing demo_world "in" "mappings.yaml" "p" "d" "t"
           demo_doc demo_files (init_state 0) eq_refl eq_refl eq_refl).
  intros filename file_mapping Hmap Hvalid. unfold demo_doc in Hmap.
  cbn [dict_get] in Hmap.
  destruct (String.eqb "a.csv" filename).
  { injection Hmap as <-. eexists. reflexivity. }
  destruct (String.eqb "d.csv" filename).
  { injection Hmap as <-. discriminate Hvalid. }
  destruct (String.eqb "DATA.CSV" filename).
  { injection Hmap as <-. eexists. reflexivity. }
  destruct (String.eqb "e.xlsx" filename).
  { injection Hmap as <-. eexists. reflexivity. }
  discriminate Hmap.
Defined.

(** X10. A file without rows is processed like any other: the load is
    called once with the empty list of rows, and when it succeeds the file
    ends 'success' with [total_rows] and [processed_rows] at 0. *)
Theorem process_files_empty_dataset (W : World)
    (directory mapping_file project_id dataset_id table_id : string)
    (d : list (string * pyval)) (files : list string) (st : State)
    (f : string) (file_mapping : pyval) (df : DataFrame scalar) :
  let table_ref := project_id +:+ "." +:+ dataset_id +:+ "." +:+ table_id in
  is_ok (bigquery_Client W project_id) = true →
  load_column_mappings W mapping_file = Ok (VDict d) →
  os_listdir W directory = Ok files →
  In f files →
  endswith_any f [".xlsx"; ".csv"] = true →
  dict_get f d = Some file_mapping →
  is_Some (file_mapping_of file_mapping) →
  read_result W f (path_join directory f) = Ok df →
  len df = 0 →
  ∃ st' entry,
    process_files W directory mapping_file project_id dataset_id table_id st
    = (Ok (stats st'), st')
    ∧ dict_get f (stats st') = Some entry
    ∧ In (EvLoadTable [] table_ref) (events st')
    ∧ total_rows entry = 0
    ∧ processed_rows entry = 0
    ∧ (is_ok (load_table_from_json W [] table_ref) = true →
         status entry = success ∧ error_message entry = None)
    ∧ (∀ e, load_table_from_json W [] table_ref = Raise e →
         status entry = failed ∧ error_message entry = Some (exc_str e)).
Proof.
  intros table_ref Hclient Hload Hlist Hf Hext Hmap [fm Hfm] Hread Hlen.
  subst table_ref.
  assert (assignable (columns fm) df = true) as Hassign.
  { apply default_index_assignable, empty_index_default.
    by rewrite range_index_length. }
  destruct (process_files_run W directory mapping_file project_id dataset_id
              table_id d files st Hclient Hload Hlist)
    as (st' & Hrun & Hin & _ & _).
  destruct (Hin f Hf) as (t & Hentry & Hevs).
  pose proof (file_mapping_of_valid _ _ f Hfm) as Hvalid.
  unfold file_step in Hentry, Hevs. rewrite Hext, Hmap, Hvalid in Hentry, Hevs.
  cbn [negb] in Hentry, Hevs. unfold tried, norm_outcome in Hentry, Hevs.
  rewrite Hread, Hfm in Hentry, Hevs. cbv zeta in Hentry, Hevs.
  rewrite (normalize_rows _ _ _ _ _ _ Hassign), Hlen in Hentry, Hevs.
  cbn [seq map] in Hentry, Hevs.
  unfold record in *. revert Hentry Hevs.
  destruct (load_table_from_json W (@nil (list (string * cell)))
              (project_id +:+ "." +:+ dataset_id +:+ "." +:+ table_id))
    as [u|e] eqn:Hsink; intros Hentry Hevs;
    cbn [fst snd] in Hentry, Hevs;
    (exists st'; eexists; split; [done|]; split; [exact Hentry|]); cbn.
  - split_and!; try done. apply Hevs, in_cons, in_or_app. right. by left.
  - split_and!; try done.
    + apply Hevs, in_cons, in_or_app. left. apply in_or_app. right. by left.
    + by intros e' [= <-].
Qed.

Lemma process_files_empty_dataset_witness :
  ∃ st' entry,
    process_files (demo_world_reading (mkFrame [] [("id", λ _, SNaN)]))
      "in" "mappings.yaml" "p" "d" "t" (init_state 0)
    = (Ok (stats st'), st')
    ∧ dict_get "a.csv" (stats st') = Some entry
    ∧ In (EvLoadTable [] "p.d.t") (events st')
    ∧ status entry = success
    ∧ processed_rows entry = 0.
Proof.
  destruct (process_files_empty_dataset
              (demo_world_reading (mkFrame [] [("id", λ _, SNaN)]))
              "in" "mappings.yaml" "p" "d" "t"
              demo_doc demo_files (init_state 0) "a.csv"
              (VDict [("data_source", VStr "crm");
                      ("columns", VDict [("id", VStr "Id"); ("name", VStr "FirstName");
                                         ("Email2", VStr "Email"); ("age", VStr "Extra")]);
                      ("attributes", VDict [("age", VStr "Age"); ("name", VStr "Nick");
                                            ("zip", VStr "Zip")])])
              (mkFrame [] [("id", λ _, SNaN)]) eq_refl eq_refl eq_refl)
    as (st' & entry & Hrun & Hentry & Hload & _ & Hp & Hok & _).
  { cbn. tauto. }
  { reflexivity. }
  { reflexivity. }
  { by eexists. }
  { reflexivity. }
  { reflexivity. }
  exists st', entry. split; [exact Hrun|]. split; [exact Hentry|].
  split; [exact Hload|]. split; [exact (proj1 (Hok eq_refl))|exact Hp].
Defined.

(** X11. A file whose columns cannot be aligned fails as a whole: when an
    entry of the columns mapping names a column of the file and the labels
    of the file are neither those of [range(len(df))] nor distinct labels
    of a one-level index, the exception of line 119 is caught at the file
    boundary; the entry ends 'failed' with the text of the exception, the
    rows of the file counted and none processed, and its end time set. *)
Theorem process_files_alignment_failure (W : World)
    (directory mapping_file project_id dataset_id table_id : string)
    (d : list (string * pyval)) (files : list string) (st : State) (f : string)
    (file_mapping : pyval) (fm : FileMapping) (df : DataFrame scalar) :
  is_ok (bigquery_Client W project_id) = true →
  load_column_mappings W mapping_file = Ok (VDict d) →
  os_listdir W directory = Ok files →
  In f files →
  endswith_any f [".xlsx"; ".csv"] = true →
  dict_get f d = Some file_mapping →
  file_mapping_of file_mapping = Some fm →
  read_result W f (path_join directory f) = Ok df →
  assignable (columns fm) df = false →
  ∃ st' entry,
    process_files W directory mapping_file project_id dataset_id table_id st
    = (Ok (stats st'), st')
    ∧ dict_get f (stats st') = Some entry
    ∧ status entry = failed
    ∧ error_message entry = Some (exc_str (alignment_error df))
    ∧ total_rows entry = len df
    ∧ processed_rows entry = 0
    ∧ is_Some (end_time entry)
    ∧ In (EvPrint (error_line f (alignment_error df))) (events st').
Proof.
  intros Hclient Hload Hlist Hf Hext Hmap Hfm Hread Hassign.
  destruct (process_files_run W directory mapping_file project_id dataset_id
              table_id d files st Hclient Hload Hlist)
    as (st' & Hrun & Hin & _ & _).
  destruct (Hin f Hf) as (t & Hentry & Hevs).
  pose proof (file_mapping_of_valid _ _ f Hfm) as Hvalid.
  unfold file_step in Hentry, Hevs. rewrite Hext, Hmap, Hvalid in Hentry, Hevs.
  cbn [negb] in Hentry, Hevs. unfold tried, norm_outcome in Hentry, Hevs.
  rewrite Hread, Hfm in Hentry, Hevs. cbv zeta in Hentry, Hevs.
  rewrite (normalize_not_assignable _ _ _ _ _ _ Hassign) in Hentry, Hevs.
  cbn [fst snd] in Hentry, Hevs.
  exists st'. eexists. split; [done|]. split; [exact Hentry|]. cbn.
  split_and!; try done.
  apply Hevs, in_or_app. right. by left.
Qed.

Lemma process_files_alignment_failure_witness :
  ∃ st' entry,
    process_files (demo_world_reading repeated_df)
      "in" "mappings.yaml" "p" "d" "t" (init_state 0)
    = (Ok (stats st'), st')
    ∧ dict_get "a.csv" (stats st') = Some entry
    ∧ status entry = failed
    ∧ error_message entry = Some "cannot reindex on an axis with duplicate labels"
    ∧ total_rows entry = 2
    ∧ processed_rows entry = 0.
Proof.
  destruct (process_files_alignment_failure (demo_world_reading repeated_df)
              "in" "mappings.yaml" "p" "d" "t"
              demo_doc demo_files (init_state 0) "a.csv"
              (VDict [("data_source", VStr "crm");
                      ("columns", VDict [("id", VStr "Id"); ("name", VStr "FirstName");
                                         ("Email2", VStr "Email"); ("age", VStr "Extra")]);
                      ("attributes", VDict [("age", VStr "Age"); ("name", VStr "Nick");
                                            ("zip", VStr "Zip")])])
              sample_mapping repeated_df eq_refl eq_refl eq_refl)
    as (st' & entry & Hrun & Hentry & Hs & Hm & Ht & Hp & _).
  { cbn. tauto. }
  { reflexivity. }
  { reflexivity. }
  { reflexivity. }
  { reflexivity. }
  { reflexivity. }
  exists st', entry. split; [exact Hrun|]. split; [exact Hentry|].
  split; [exact Hs|]. split; [exact Hm|]. split; [exact Ht|exact Hp].
Defined.

(** ** The loads of a run *)

Lemma tried_loads W table_ref file_mapping filename filepath t rows tr :
  In (EvLoadTable rows tr) (tried W table_ref file_mapping filename filepath t).2 →
  tr = table_ref
  ∧ ∃ df ticks printed,
      read_result W filename filepath = Ok df
      ∧ norm_outcome W file_mapping filename df (S t) = (ticks, printed, Ok rows).
Proof.
  unfold tried, read_event.
  destruct (read_result W filename filepath) as [df|e]; cbn.
  2:{ destruct (endswith filename ".xlsx"); intros [?|[?|[]]]; done. }
  destruct (norm_outcome _ _ _ _ _) as [[ticks printed] [rows'|e]] eqn:Hnorm.
  - assert (∀ l, In (EvLoadTable rows tr)
               ((if endswith filename ".xlsx" then EvReadExcel filepath
                 else EvReadCsv filepath) :: map EvPrint printed
                ++ [EvLoadTable rows' table_ref] ++ l) →
               (∀ ev, In ev l → ∃ line, ev = EvPrint line) →
               tr = table_ref ∧ rows = rows') as Hcases.
    { intros l [Hr|Hin] Hl.
      - by destruct (endswith filename ".xlsx").
      - rewrite !in_app_iff, in_map_iff in Hin.
        destruct Hin as [(? & ? & ?)|[[[= -> ->]|[]]|Hin]]; [done|done|].
        by destruct (Hl _ Hin). }
    destruct (load_table_from_json W rows' table_ref); cbn; intros Hin.
    + destruct (Hcases [] ) as [-> ->]; [by rewrite app_nil_r|by intros ? []|].
      split; [done|]. by exists df, ticks, printed.
    + destruct (Hcases [EvPrint (error_line filename e)]) as [-> ->].
      * by rewrite <- app_assoc in Hin.
      * intros ev [<-|[]]. by eexists.
      * split; [done|]. by exists df, ticks, printed.
  - cbn. rewrite in_app_iff, in_map_iff.
    intros [Hr|[(? & ? & ?)|[?|[]]]]; try done.
    by destruct (endswith filename ".xlsx").
Qed.

(** X12. Every load of a run goes to the table named by the three
    identifiers, and carries the rows that the normalisation returned for a
    file of the listing that has a supported extension, a mapping that
    validates, and that the reader parsed: no skipped file, no file with an
    invalid mapping and no file that failed to parse is ever loaded. *)
Theorem process_files_loads (W : World)
    (directory mapping_file project_id dataset_id table_id : string)
    (d : list (string * pyval)) (files : list string) (t0 : nat) :
  let table_ref := project_id +:+ "." +:+ dataset_id +:+ "." +:+ table_id in
  is_ok (bigquery_Client W project_id) = true →
  load_column_mappings W mapping_file = Ok (VDict d) →
  os_listdir W directory = Ok files →
  ∃ st',
    process_files W directory mapping_file project_id dataset_id table_id
      (init_state t0) = (Ok (stats st'), st')
    ∧ ∀ rows tr, In (EvLoadTable rows tr) (events st') →
        tr = table_ref
        ∧ ∃ f file_mapping df t ticks printed,
            In f files
            ∧ endswith_any f [".xlsx"; ".csv"] = true
            ∧ dict_get f d = Some file_mapping
            ∧ validate_mapping_config file_mapping f = Ok true
            ∧ read_result W f (path_join directory f) = Ok df
            ∧ norm_outcome W file_mapping f df (S t) = (ticks, printed, Ok rows).
Proof.
  intros table_ref Hclient Hload Hlist. subst table_ref.
  destruct (process_files_run W directory mapping_file project_id dataset_id
              table_id d files (init_state t0) Hclient Hload Hlist)
    as (st' & Hrun & _ & _ & Hevs).
  exists st'. split; [done|]. intros rows tr Hin.
  destruct (Hevs _ Hin) as [[]|(f & t & Hf & Hstep)].
  unfold file_step in Hstep.
  destruct (endswith_any f [".xlsx"; ".csv"]) eqn:Hext; cbn [negb] in Hstep;
    [|by destruct Hstep].
  destruct (dict_get f d) as [file_mapping|] eqn:Hmap; [|by destruct Hstep].
  destruct (validate_mapping_config file_mapping f) as [[|]|] eqn:Hvalid;
    try by destruct Hstep.
  destruct (tried_loads _ _ _ _ _ _ _ _ Hstep) as (-> & df & ticks & printed & Hr & Hn).
  split; [done|]. by exists f, file_mapping, df, t, ticks, printed.
Qed.

Lemma process_files_loads_witness :
  ∃ st',
    process_files demo_world "in" "mappings.yaml" "p" "d" "t" (init_state 0)
    = (Ok (stats st'), st')
    ∧ ∀ rows tr, In (EvLoadTable rows tr) (events st') → tr = "p.d.t".
Proof.
  destruct (process_files_loads demo_world "in" "mappings.yaml" "p" "d" "t"
              demo_doc demo_files 0 eq_refl eq_refl eq_refl)
    as (st' & Hrun & Hloads).
  exists st'. split; [exact Hrun|].
  intros rows tr Hin. exact (proj1 (Hloads rows tr Hin)).
Defined.
(** ** [main] *)

Lemma print_summary_run item st :
  print_summary item st
  = (Ok (), mkState (stats st) (clock st)
              (events st ++ map EvPrint (summary_lines item))).
Proof.
  destruct item as [filename file_stats], st as [s c ev].
  unfold print_summary, summary_lines. cbn [fst snd].
  destruct (error_message file_stats) as [[|x m]|]; run_file;
    unfold print, emit; cbn [stats clock events];
    rewrite <- ?app_assoc; reflexivity.
Qed.

Lemma for_each_print_summary items st :
  for_each print_summary items st
  = (Ok (), mkState (stats st) (clock st)
              (events st ++ map EvPrint (flat_map summary_lines items))).
Proof.
  revert st. induction items as [|item items IH]; intros [s c ev].
  - cbn. by rewrite app_nil_r.
  - cbn [for_each flat_map]. unfold mbind, Run_bind.
    rewrite print_summary_run, IH. cbn [stats clock events].
    by rewrite map_app, app_assoc.
Qed.


(** X14. What [main] prints after [process_files]: when the statistics
    are saved, the heading and then, for each entry of the statistics in
    their order, the five lines of the file followed by an 'Error:' line
    exactly when the entry has a non-empty error message; when saving
    fails, the line 'Error during processing: ...' alone, the loads of the
    run having been made; and the same line when [process_files] raises. *)
Theorem main_prints (W : World)
    (directory mapping_file project_id dataset_id table_id output_file : string)
    (st : State) :
  let run := process_files W directory mapping_file project_id dataset_id table_id st in
  let out := main W directory mapping_file project_id dataset_id table_id
               output_file st in
  (∀ file_stats, run.1 = Ok file_stats →
     is_ok (write_statistics W output_file) = true →
     out.1 = Ok 0
     ∧ events out.2
       = events run.2
         ++ EvPrint (newline +:+ "Processing Summary:")
            :: map EvPrint (flat_map summary_lines file_stats))
  ∧ (∀ file_stats e, run.1 = Ok file_stats →
       write_statistics W output_file = Raise e →
       out.1 = Ok 1
       ∧ events out.2
         = events run.2 ++ [EvPrint ("Error during processing: " +:+ exc_str e)])
  ∧ (∀ e, run.1 = Raise e →
       out.1 = Ok 1
       ∧ events out.2
         = events run.2 ++ [EvPrint ("Error during processing: " +:+ exc_str e)]).
Proof.
  cbv zeta. unfold main, try_catch, save_statistics, mbind, Run_bind, liftR.
  destruct (process_files _ _ _ _ _ _ st) as [[stats_|e] [s c ev]]; cbn [fst snd].
  - split_and!; [| |done].
    + intros file_stats [= <-] Hw.
      destruct (write_statistics W output_file) as [u|e]; [|done].
      run_file. rewrite for_each_print_summary. cbn.
      split; [done|]. by rewrite <- app_assoc.
    + intros file_stats e [= <-] ->. by run_file.
  - split_and!; [done|done|]. intros e' [= <-]. by run_file.
Qed.

Lemma main_prints_witness :
  let run := process_files demo_world "in" "mappings.yaml" "p" "d" "t" (init_state 0) in
  let out := main demo_world "in" "mappings.yaml" "p" "d" "t" "stats.json"
               (init_state 0) in
  out.1 = Ok 0
  ∧ events out.2
    = events run.2
      ++ map EvPrint
           [newline +:+ "Processing Summary:";
            newline +:+ "File: a.csv"; "Status: success"; "Total rows: 2";
            "Processed rows: 2"; "Failed rows: 0";
            newline +:+ "File: b.txt"; "Status: skipped"; "Total rows: 0";
            "Processed rows: 0"; "Failed rows: 0";
            "Error: Not a supported file type";
            newline +:+ "File: c.csv"; "Status: skipped"; "Total rows: 0";
            "Processed rows: 0"; "Failed rows: 0";
            "Error: No mapping configuration found";
            newline +:+ "File: d.csv"; "Status: failed"; "Total rows: 0";
            "Processed rows: 0"; "Failed rows: 0";
            "Error: Invalid mapping configuration";
            newline +:+ "File: DATA.CSV"; "Status: skipped"; "Total rows: 0";
            "Processed rows: 0"; "Failed rows: 0";
            "Error: Not a supported file type";
            newline +:+ "File: e.xlsx"; "Status: failed"; "Total rows: 0";
            "Processed rows: 0"; "Failed rows: 0";
            "Error: File is not a zip file"].
Proof.
  cbv zeta.
  destruct (main_prints demo_world "in" "mappings.yaml" "p" "d" "t" "stats.json"
              (init_state 0)) as (Hok & _ & _).
  assert ((process_files demo_world "in" "mappings.yaml" "p" "d" "t" (init_state 0)).1
          = Ok (default []
                  (match (process_files demo_world "in" "mappings.yaml" "p" "d" "t"
                            (init_state 0)).1 with
                   | Ok file_stats => Some file_stats
                   | Raise _ => None
                   end))) as Hrun.
  { vm_compute. reflexivity. }
  destruct (Hok _ Hrun eq_refl) as [Hcode Hevents].
  split; [exact Hcode|]. rewrite Hevents. vm_compute. reflexivity.
Defined.

(** ** The mapping document that is loaded *)

(** X15. [load_column_mappings] returns a document exactly when the file
    opens and the parser chosen by the suffix returns it: the YAML parser
    for a name ending in .yaml or .yml, the JSON parser for a name ending
    in .json and in neither of the two.  The suffix is compared as it is
    written, and the document is returned unchanged, whatever its shape. *)
Theorem load_column_mappings_returns (W : World) (mapping_file : string)
    (doc : pyval) :
  load_column_mappings W mapping_file = Ok doc
  ↔ ∃ text,
      open_text W mapping_file = Ok text
      ∧ (endswith_any mapping_file [".yaml"; ".yml"] = true
         ∧ yaml_safe_load W text = Ok doc
         ∨ endswith_any mapping_file [".yaml"; ".yml"] = false
           ∧ endswith mapping_file ".json" = true
           ∧ json_load W text = Ok doc).
Proof.
  unfold load_column_mappings, try_except, mbind, result_bind.
  destruct (open_text W mapping_file) as [text|e0].
  2:{ split; [done|]. by intros (text & ? & _). }
  destruct (endswith_any mapping_file [".yaml"; ".yml"]).
  - destruct (yaml_safe_load W text) as [doc'|e] eqn:Hyaml.
    + split.
      * intros [= ->]. exists text. split; [done|]. by left.
      * intros (text' & [= <-] & [[_ Hdoc]|[? _]]); [congruence|done].
    + split; [done|].
      intros (text' & [= <-] & [[_ Hdoc]|[? _]]); [congruence|done].
  - destruct (endswith mapping_file ".json").
    + destruct (json_load W text) as [doc'|e] eqn:Hjson.
      * split.
        -- intros [= ->]. exists text. split; [done|]. by right.
        -- intros (text' & [= <-] & [[? _]|(_ & _ & Hdoc)]); [done|congruence].
      * split; [done|].
        intros (text' & [= <-] & [[? _]|(_ & _ & Hdoc)]); [done|congruence].
    + split; [done|]. intros (text' & [= <-] & [[? _]|(_ & ? & _)]); done.
Qed.

Lemma load_column_mappings_returns_witness :
  load_column_mappings quiet_world "mappings.yml" = Ok (VDict [])
  ∧ ¬ (∃ doc, load_column_mappings quiet_world "mappings.YAML" = Ok doc).
Proof.
  split.
  - apply (load_column_mappings_returns quiet_world "mappings.yml" (VDict [])).
    exists "". split; [reflexivity|]. left. split; reflexivity.
  - intros [doc Hdoc].
    apply (load_column_mappings_returns quiet_world "mappings.YAML" doc) in Hdoc
      as (text & _ & [[Hyaml _]|(_ & Hjson & _)]); discriminate.
Defined.

(** ** The dates of a file *)

Lemma record_at_untargeted fm filename created modified inserted df idx field :
  (∀ source_col, In (source_col, field) (columns fm) →
     has_column source_col df = false) →
  In field ["SourceCreatedDate"; "SourceModifiedDate"; "BQInsertedDate"] →
  dict_get field
    (map nullified (record_at fm filename created modified inserted df idx))
  = dict_get field (default_row fm filename created modified inserted).
Proof.
  intros Huntargeted Hfield. rewrite dict_get_nullified. unfold record_at.
  rewrite dict_get_set_ne by (intros <-; cbn in Hfield; naive_solver).
  rewrite columns_at_untouched
    by (intros sc Hsc; by apply has_column_false, Huntargeted).
  destruct (dict_get field (default_row _ _ _ _ _)) as [v|] eqn:Hv; [|done].
  cbn. f_equal. by eapply default_row_values.
Qed.

(** X16. The clock of a file that is parsed and normalised is read five
    times, in this order: for the start time of its entry, for the fields
    SourceCreatedDate, SourceModifiedDate and BQInsertedDate of its
    records, and for the end time of its entry.  The three dates are thus
    three readings of their own, the same in every record of the file,
    and they lie between the start and the end of the entry. *)
Theorem process_files_dates (W : World)
    (directory mapping_file project_id dataset_id table_id : string)
    (d : list (string * pyval)) (files : list string) (st : State) (f : string)
    (file_mapping : pyval) (fm : FileMapping) (df : DataFrame scalar) :
  let table_ref := project_id +:+ "." +:+ dataset_id +:+ "." +:+ table_id in
  is_ok (bigquery_Client W project_id) = true →
  load_column_mappings W mapping_file = Ok (VDict d) →
  os_listdir W directory = Ok files →
  In f files →
  endswith_any f [".xlsx"; ".csv"] = true →
  dict_get f d = Some file_mapping →
  file_mapping_of file_mapping = Some fm →
  read_result W f (path_join directory f) = Ok df →
  assignable (columns fm) df = true →
  ∃ st' entry t rows,
    process_files W directory mapping_file project_id dataset_id table_id st
    = (Ok (stats st'), st')
    ∧ dict_get f (stats st') = Some entry
    ∧ start_time entry = Some (isoformat W t)
    ∧ end_time entry = Some (isoformat W (4 + t))
    ∧ In (EvLoadTable rows table_ref) (events st')
    ∧ (normalize fm f (strftime W (1 + t)) (strftime W (2 + t))
         (strftime W (3 + t)) df).2 = Ok rows
    ∧ ∀ row field, In row rows →
        (∀ source_col, In (source_col, field) (columns fm) →
           has_column source_col df = false) →
        (field = "SourceCreatedDate" →
         dict_get field row = Some (CScalar (SStr (strftime W (1 + t)))))
        ∧ (field = "SourceModifiedDate" →
           dict_get field row = Some (CScalar (SStr (strftime W (2 + t)))))
        ∧ (field = "BQInsertedDate" →
           dict_get field row = Some (CScalar (SStr (strftime W (3 + t))))).
Proof.
  intros table_ref Hclient Hload Hlist Hf Hext Hmap Hfm Hread Hassign.
  subst table_ref.
  destruct (process_files_run W directory mapping_file project_id dataset_id
              table_id d files st Hclient Hload Hlist)
    as (st' & Hrun & Hin & _ & _).
  destruct (Hin f Hf) as (t & Hentry & Hevs).
  pose proof (file_mapping_of_valid _ _ f Hfm) as Hvalid.
  unfold file_step in Hentry, Hevs. rewrite Hext, Hmap, Hvalid in Hentry, Hevs.
  cbn [negb] in Hentry, Hevs. unfold tried, norm_outcome in Hentry, Hevs.
  rewrite Hread, Hfm in Hentry, Hevs. cbv zeta in Hentry, Hevs.
  rewrite (normalize_rows _ _ _ _ _ _ Hassign) in Hentry, Hevs.
  cbn [fst snd] in Hentry, Hevs.
  set (rows := map (λ idx, map nullified
                      (record_at fm f (strftime W (S t)) (strftime W (S (S t)))
                         (strftime W (S (S (S t)))) df idx))
                 (seq 0 (len df))) in *.
  exists st'. eexists. exists t, rows.
  split; [done|]. split; [exact Hentry|].
  assert (In (EvLoadTable rows
                (project_id +:+ "." +:+ dataset_id +:+ "." +:+ table_id))
             (events st')) as Hloaded.
  { apply Hevs. destruct (load_table_from_json W rows _); cbn.
    - apply in_cons, in_or_app. right. by left.
    - apply in_cons, in_or_app. left. apply in_or_app. right. by left. }
  split_and!.
  - by destruct (load_table_from_json W rows _).
  - by destruct (load_table_from_json W rows _).
  - done.
  - by apply normalize_rows.
  - intros row field [idx [<- _]]%in_map_iff Huntargeted.
    split_and!; intros ->; by rewrite record_at_untargeted by (cbn; tauto).
Qed.

Lemma process_files_dates_witness :
  ∃ st' entry t rows,
    process_files demo_world "in" "mappings.yaml" "p" "d" "t" (init_state 0)
    = (Ok (stats st'), st')
    ∧ dict_get "a.csv" (stats st') = Some entry
    ∧ start_time entry = Some (str_nat t)
    ∧ end_time entry = Some (str_nat (4 + t))
    ∧ In (EvLoadTable rows "p.d.t") (events st')
    ∧ ∀ row, In row rows →
        dict_get "SourceCreatedDate" row = Some (CScalar (SStr (str_nat (1 + t))))
        ∧ dict_get "SourceModifiedDate" row = Some (CScalar (SStr (str_nat (2 + t))))
        ∧ dict_get "BQInsertedDate" row = Some (CScalar (SStr (str_nat (3 + t)))).
Proof.
  destruct (process_files_dates demo_world "in" "mappings.yaml" "p" "d" "t"
              demo_doc demo_files (init_state 0) "a.csv"
              (VDict [("data_source", VStr "crm");
                      ("columns", VDict [("id", VStr "Id"); ("name", VStr "FirstName");
                                         ("Email2", VStr "Email"); ("age", VStr "Extra")]);
                      ("attributes", VDict [("age", VStr "Age"); ("name", VStr "Nick");
                                            ("zip", VStr "Zip")])])
              sample_mapping sample_df eq_refl eq_refl eq_refl)
    as (st' & entry & t & rows & Hrun & Hentry & Hstart & Hend & Hload & _ & Hdates).
  { cbn. tauto. }
  { reflexivity. }
  { reflexivity. }
  { reflexivity. }
  { reflexivity. }
  { reflexivity. }
  exists st', entry, t, rows.
  split; [exact Hrun|]. split; [exact Hentry|]. split; [exact Hstart|].
  split; [exact Hend|]. split; [exact Hload|].
  intros row Hrow.
  assert (∀ field, In field ["SourceCreatedDate"; "SourceModifiedDate"; "BQInsertedDate"] →
          ∀ source_col, In (source_col, field) (columns sample_mapping) →
            has_column source_col sample_df = false) as Hun.
  { intros field Hfield source_col Hin. cbn in Hin, Hfield.
    destruct Hfield as [<-|[<-|[<-|[]]]];
      destruct Hin as [H|[H|[H|[H|[]]]]]; inversion H. }
  split_and!.
  - apply (Hdates row "SourceCreatedDate" Hrow); [apply Hun; cbn; tauto|done].
  - apply (Hdates row "SourceModifiedDate" Hrow); [apply Hun; cbn; tauto|done].
  - apply (Hdates row "BQInsertedDate" Hrow); [apply Hun; cbn; tauto|done].
Defined.
